(** * RoI_Calculator: random cost types, the cash-flow sheet and its summary

    A shallow embedding of [random_type.py] and [cash_flow.py].

    - Python [float] values are kept abstract behind the class [PyFloat]
      (the operations the two modules apply to numbers); the instance
      [binary64] runs them on IEEE-754 double precision, which is what
      CPython does, and the instance [exactQ] runs them on exact rationals.
    - Exceptions and mutation are explicit: a method of an object with
      state [S] is a function [S -> result A * S]; the state that comes
      back with [Raise] is the state the exception leaves behind.
    - The generator behind [random.gauss] and [random.paretovariate] is a
      parameter: a state type with the two draws.
    - An [lxml] element is its tag, its text and its children; the text
      is [None] or a string, and a text set to the empty string stays the
      empty string until the document is written out and parsed again.
    - A Python [str] is the string of its UTF-8 bytes. *)

From Stdlib Require Import ZArith List String Bool Lia.
From Stdlib Require Import Floats QArith Qabs Qpower DecimalString.
Import ListNotations.

Set Implicit Arguments.
Set Warnings "-inexact-float".
Local Open Scope string_scope.
Local Open Scope Z_scope.
Local Open Scope list_scope.

(* ================================================================== *)
(** ** Exceptions and the state-and-exception monad *)

Inductive exn : Type :=
| TypeError (msg : string)
| ValueError
| AttributeError
| IndexError
| OverflowError
| ZeroDivisionError
| UnboundLocalError
| RuntimeError (msg : string).

Inductive result (A : Type) : Type :=
| Ok (a : A)
| Raise (e : exn).
Arguments Ok {A} a.
Arguments Raise {A} e.

(** A computation over a mutable state [S]. *)
Definition M (S A : Type) : Type := S -> result A * S.

Definition ret {S A} (a : A) : M S A := fun s => (Ok a, s).

Definition raise {S A} (e : exn) : M S A := fun s => (Raise e, s).

Definition bind {S A B} (m : M S A) (k : A -> M S B) : M S B :=
  fun s => match m s with
           | (Ok a, s') => k a s'
           | (Raise e, s') => (Raise e, s')
           end.

Definition get {S} : M S S := fun s => (Ok s, s).
Definition put {S} (s : S) : M S unit := fun _ => (Ok tt, s).

(** A pure fallible value used inside a stateful computation. *)
Definition lift {S A} (r : result A) : M S A := fun s => (r, s).

Declare Scope py_scope.
Delimit Scope py_scope with py.
Notation "x <- m ;; k" := (bind m (fun x => k))
  (at level 61, m at next level, right associativity) : py_scope.
Notation "m ;;; k" := (bind m (fun _ => k))
  (at level 61, right associativity) : py_scope.
Local Open Scope py_scope.

(** [[f(x) for x in xs]] with an effectful [f]: left to right. *)
Fixpoint mapM {S A B} (f : A -> M S B) (xs : list A) : M S (list B) :=
  match xs with
  | [] => ret []
  | x :: xs' => y <- f x ;; ys <- mapM f xs' ;; ret (y :: ys)
  end.

(** The exception-only fragment. *)
Definition rbind {A B} (r : result A) (k : A -> result B) : result B :=
  match r with
  | Ok a => k a
  | Raise e => Raise e
  end.
Notation "x <-r m ;; k" := (rbind m (fun x => k))
  (at level 61, m at next level, right associativity) : py_scope.

Fixpoint rmap {A B} (f : A -> result B) (xs : list A) : result (list B) :=
  match xs with
  | [] => Ok []
  | x :: xs' => y <-r f x ;; ys <-r rmap f xs' ;; Ok (y :: ys)
  end.

(* ================================================================== *)
(** ** Python numbers *)

(** What the two modules do with a number: literals, [math.inf], [+], [/],
    [abs], and the comparisons [<=], [>] and [==].  An [int] meets a
    [float] through [of_int]. *)
Class PyFloat (F : Type) : Type := {
  of_int : Z -> F;
  finf : F;
  fadd : F -> F -> F;
  fdiv : F -> F -> F;
  fabs : F -> F;
  fleb : F -> F -> bool;
  fltb : F -> F -> bool;
  feqb : F -> F -> bool
}.

Declare Scope pyfloat_scope.
Delimit Scope pyfloat_scope with F.
Infix "+" := fadd : pyfloat_scope.
Infix "/" := fdiv : pyfloat_scope.
Notation "x <= y" := (fleb x y = true) : pyfloat_scope.
Notation "x < y" := (fltb x y = true) : pyfloat_scope.

(** Python's [0.0]. *)
Definition fzero {F} `{PyFloat F} : F := of_int 0.

(** IEEE-754 binary64, the [float] of CPython. *)
Module Binary64.

Definition of_Z (z : Z) : float :=
    match z with
    | Z0 => PrimFloat.zero
    | Zpos _ => PrimFloat.of_uint63 (Uint63.of_Z z)
    | Zneg p => PrimFloat.opp (PrimFloat.of_uint63 (Uint63.of_Z (Zpos p)))
    end.

End Binary64.

#[export] Instance binary64 : PyFloat float := {
  of_int := Binary64.of_Z;
  finf := PrimFloat.infinity;
  fadd := PrimFloat.add;
  fdiv := PrimFloat.div;
  fabs := PrimFloat.abs;
  fleb := PrimFloat.leb;
  fltb := PrimFloat.ltb;
  feqb := PrimFloat.eqb
}.

(** Exact rational arithmetic (no infinity: [finf] is unused there and
    stands for a bound no year of the examples reaches). *)
Module ExactQ.

Definition ltb (x y : Q) : bool := negb (Qle_bool y x).

End ExactQ.

#[export] Instance exactQ : PyFloat Q := {
  of_int := inject_Z;
  finf := inject_Z (2 ^ 1024);
  fadd := Qplus;
  fdiv := Qdiv;
  fabs := Qabs;
  fleb := Qle_bool;
  fltb := ExactQ.ltb;
  feqb := Qeq_bool
}.

(** [str] and [float] on numbers, and [math.floor]: the text side of a
    Python float.  [py_float] raises [ValueError] on a malformed literal,
    [py_floor] raises on an infinity or a NaN. *)
Class PyText (F : Type) : Type := {
  py_str : F -> string;
  py_float : string -> result F;
  py_floor : F -> result Z
}.

(** [str] of an [int]. *)
Definition str_int (z : Z) : string := NilZero.string_of_int (Z.to_int z).

(** The generator of the [random] module: the two draws the program
    makes, each advancing the generator's state. *)
Class PyRandom (F Rng : Type) : Type := {
  gauss : F -> F -> M Rng F;
  paretovariate : F -> M Rng F
}.

(** The numerics of numpy that the program reaches: [np.irr], the root
    finder behind the internal rate of return, and the two operations
    [np.npv] is made of, [ndarray.sum()] and [x ** t] for an index [t] of
    [np.arange].  On doubles the order in which [sum] adds and the last
    place of the power (the [pow] of the C library) are numpy's own, so
    the three are parameters. *)
Class Numpy (F : Type) : Type := {
  np_irr : list F -> F;
  np_sum : list F -> F;
  np_power : F -> nat -> F
}.

(* ================================================================== *)
(** ** lxml.etree elements, as the two modules use them *)

Module etree.

#[warnings="-register-all"]
Inductive Element : Type :=
| Elem (tag : string) (text : option string) (children : list Element).

Definition tag (e : Element) : string :=
  match e with Elem t _ _ => t end.

Definition text (e : Element) : option string :=
  match e with Elem _ x _ => x end.

Definition children (e : Element) : list Element :=
  match e with Elem _ _ c => c end.

(** A fresh child with the tag [t] whose text is [s]. *)
Definition leaf (t : string) (s : option string) : Element := Elem t s [].

(** [xmlIsChar_ch]: the bytes below 0x80 that XML allows are the tab, the
    line feed, the carriage return and everything from the space on. *)
Definition xmlIsChar_ch (c : Ascii.ascii) : bool :=
  let n := Ascii.N_of_ascii c in
  (((9 <=? n) && (n <=? 10)) || (n =? 13) || (32 <=? n))%N.

(** [_is_valid_xml_utf8], the test lxml applies to the UTF-8 bytes of a
    string before it stores it: every byte below 0x80 is an XML character,
    and no three bytes encode U+FFFE, U+FFFF or a surrogate. *)
Fixpoint _is_valid_xml_utf8 (s : string) : bool :=
  match s with
  | EmptyString => true
  | String c rest =>
      (if (128 <=? Ascii.N_of_ascii c)%N
       then match rest with
            | String c1 (String c2 _) =>
                let next3 := (Ascii.N_of_ascii c * 65536
                              + Ascii.N_of_ascii c1 * 256
                              + Ascii.N_of_ascii c2)%N in
                negb ((next3 =? 0xefbfbe) || (next3 =? 0xefbfbf)
                      || ((0xeda080 <=? next3) && (next3 <=? 0xedbfbf)))%N
            | _ => true
            end
       else xmlIsChar_ch c)
      && _is_valid_xml_utf8 rest
  end.

(** [element.text = s]: [None] clears the text; a string that is not XML
    compatible (a NUL byte, a control character) raises [ValueError]. *)
Definition set_text (s : option string) : result (option string) :=
  match s with
  | None => Ok None
  | Some x => if _is_valid_xml_utf8 x then Ok (Some x) else Raise ValueError
  end.

(** [etree.SubElement(parent, tag).text = s] for a fresh child.  Where
    [s] is the [str] of a number or the empty string the assignment is
    always accepted, and the writers of numbers build the [leaf]. *)
Definition SubElement_text (t : string) (s : option string) : result Element :=
  x <-r set_text s ;; Ok (leaf t x).

(** [element.find(tag)]: the first child with that tag, or [None]. *)
Definition find (e : Element) (t : string) : option Element :=
  List.find (fun c => String.eqb (tag c) t) (children e).

(** [element.findall(tag)]: the children with that tag, in order. *)
Definition findall (e : Element) (t : string) : list Element :=
  List.filter (fun c => String.eqb (tag c) t) (children e).

(** [element.find(tag).text]: [None] has no attribute [text]. *)
Definition find_text (e : Element) (t : string) : result (option string) :=
  match find e t with
  | Some c => Ok (text c)
  | None => Raise AttributeError
  end.

End etree.

(* ================================================================== *)
(** ** Python sequences and numpy reductions *)

Section Sequences.

Context {A : Type}.

(** [l[i]]: a negative index counts from the end; out of range raises. *)
Definition py_getitem (l : list A) (i : Z) : result A :=
  let n := Z.of_nat (List.length l) in
  let j := if i <? 0 then i + n else i in
  if (0 <=? j) && (j <? n)
  then match nth_error l (Z.to_nat j) with
       | Some a => Ok a
       | None => Raise IndexError
       end
  else Raise IndexError.

(** Reading a local variable that a loop may have left unbound. *)
Definition read_local (v : option A) : result A :=
  match v with
  | Some a => Ok a
  | None => Raise UnboundLocalError
  end.

(** Reading an instance attribute that may not have been set yet. *)
Definition read_attr (v : option A) : result A :=
  match v with
  | Some a => Ok a
  | None => Raise AttributeError
  end.

End Sequences.

(** [range(lo, hi)] *)
Definition py_range (lo hi : Z) : list Z :=
  map (fun k => lo + Z.of_nat k) (seq 0 (Z.to_nat (hi - lo))).

Section Reductions.

Context {F : Type} {num : PyFloat F} {np : Numpy F}.

(** The builtin [sum]: left to right from the integer [0]. *)
Definition py_sum (xs : list F) : F := fold_left fadd xs (of_int 0).

Fixpoint cumsum_from (acc : F) (xs : list F) : list F :=
  match xs with
  | [] => []
  | x :: rest => let a := fadd acc x in a :: cumsum_from a rest
  end.

(** [np.cumsum]: the first entry is the first element itself. *)
Definition np_cumsum (xs : list F) : list F :=
  match xs with
  | [] => []
  | x :: rest => x :: cumsum_from x rest
  end.

(** [np.npv(rate, values)], as numpy defines it:
    [(values / (1+rate)**np.arange(0, len(values))).sum(axis=0)]. *)
Definition np_npv (rate : F) (values : list F) : F :=
  np_sum (map (fun vt => fdiv (fst vt) (np_power (fadd (of_int 1) rate) (snd vt)))
              (combine values (seq 0 (List.length values)))).

End Reductions.

(* ================================================================== *)
(** ** random_type.py *)

Module random_type.

Section Internal.

Context {F : Type} {num : PyFloat F} {txt : PyText F}.

(** [float(x)] on what [.text] returned: [float(None)] is a [TypeError]. *)
Definition float_of (x : option string) : result F :=
  match x with
  | Some s => py_float s
  | None => Raise (TypeError "float() argument must be a string or a number")
  end.

Definition _value_or_default (value : option string) (default : F) : result F :=
  match value with
  | None => Ok default
  | Some s => py_float s
  end.

Definition _value_or_empty (value compare_to : F) : string :=
  if feqb value compare_to then "" else py_str value.

(** [year >= self.start_year and year <= self.end_year] *)
Definition active (start_year end_year : F) (year : Z) : bool :=
  fleb start_year (of_int year) && fleb (of_int year) end_year.

End Internal.

Module Gaussian.
Section Gaussian.

Context {F : Type} {num : PyFloat F} {txt : PyText F}.
Context {Rng : Type} {rnd : PyRandom F Rng}.

Record t : Type := make {
  mu : F;
  sigma : F;
  start_year : F;
  end_year : F
}.

(** The keyword arguments are evaluated left to right. *)
Definition create_from_etree_element (e : etree.Element) : result t :=
  m <-r (x <-r etree.find_text e "mu" ;; float_of x) ;;
  s <-r (x <-r etree.find_text e "sigma" ;; float_of x) ;;
  sy <-r (x <-r etree.find_text e "startYear" ;; _value_or_default x (of_int 0)) ;;
  ey <-r (x <-r etree.find_text e "endYear" ;; _value_or_default x finf) ;;
  Ok (make m s sy ey).

Definition sample_value (self : t) (year : Z) : M Rng F :=
  if active (start_year self) (end_year self) year
  then gauss (mu self) (sigma self)
  else ret fzero.

Definition generate_etree_element (self : t) : etree.Element :=
  etree.Elem "Gaussian" None
    [ etree.leaf "mu" (Some (py_str (mu self)));
      etree.leaf "sigma" (Some (py_str (sigma self)));
      etree.leaf "startYear" (Some (_value_or_empty (start_year self) (of_int 0)));
      etree.leaf "endYear" (Some (_value_or_empty (end_year self) finf)) ].

End Gaussian.
End Gaussian.

Module Constant.
Section Constant.

Context {F : Type} {num : PyFloat F} {txt : PyText F}.
Context {Rng : Type}.

Record t : Type := make {
  value : F;
  start_year : F;
  end_year : F
}.

(** [Constant(value=v)]: the interval defaults of [__init__]. *)
Definition of_value (v : F) : t := make v (of_int 0) finf.

Definition create_from_etree_element (e : etree.Element) : result t :=
  v <-r (x <-r etree.find_text e "value" ;; float_of x) ;;
  sy <-r (x <-r etree.find_text e "startYear" ;; _value_or_default x (of_int 0)) ;;
  ey <-r (x <-r etree.find_text e "endYear" ;; _value_or_default x finf) ;;
  Ok (make v sy ey).

Definition sample_value (self : t) (year : Z) : M Rng F :=
  if active (start_year self) (end_year self) year
  then ret (value self)
  else ret fzero.

Definition generate_etree_element (self : t) : etree.Element :=
  etree.Elem "Constant" None
    [ etree.leaf "value" (Some (py_str (value self)));
      etree.leaf "startYear" (Some (_value_or_empty (start_year self) (of_int 0)));
      etree.leaf "endYear" (Some (_value_or_empty (end_year self) finf)) ].

End Constant.
End Constant.

Module Pareto.
Section Pareto.

Context {F : Type} {num : PyFloat F} {txt : PyText F}.
Context {Rng : Type} {rnd : PyRandom F Rng}.

Record t : Type := make {
  alpha : F;
  start_year : F;
  end_year : F
}.

Definition create_from_etree_element (e : etree.Element) : result t :=
  a <-r (x <-r etree.find_text e "alpha" ;; float_of x) ;;
  sy <-r (x <-r etree.find_text e "startYear" ;; _value_or_default x (of_int 0)) ;;
  ey <-r (x <-r etree.find_text e "endYear" ;; _value_or_default x finf) ;;
  Ok (make a sy ey).

Definition sample_value (self : t) (year : Z) : M Rng F :=
  if active (start_year self) (end_year self) year
  then paretovariate (alpha self)
  else ret fzero.

Definition generate_etree_element (self : t) : etree.Element :=
  etree.Elem "Pareto" None
    [ etree.leaf "alpha" (Some (py_str (alpha self)));
      etree.leaf "startYear" (Some (_value_or_empty (start_year self) (of_int 0)));
      etree.leaf "endYear" (Some (_value_or_empty (end_year self) finf)) ].

End Pareto.
End Pareto.

Section Base.

Context {F : Type} {num : PyFloat F} {txt : PyText F}.
Context {Rng : Type} {rnd : PyRandom F Rng}.

(** An instance of [RandomType]: one of its three subclasses. *)
Inductive RandomType : Type :=
| IsGaussian (d : Gaussian.t (F:=F))
| IsConstant (d : Constant.t (F:=F))
| IsPareto (d : Pareto.t (F:=F)).

Definition start_year (d : RandomType) : F :=
  match d with
  | IsGaussian g => Gaussian.start_year g
  | IsConstant c => Constant.start_year c
  | IsPareto p => Pareto.start_year p
  end.

Definition end_year (d : RandomType) : F :=
  match d with
  | IsGaussian g => Gaussian.end_year g
  | IsConstant c => Constant.end_year c
  | IsPareto p => Pareto.end_year p
  end.

(** Method dispatch on the class of the receiver. *)
Definition sample_value (d : RandomType) (year : Z) : M Rng F :=
  match d with
  | IsGaussian g => Gaussian.sample_value g year
  | IsConstant c => Constant.sample_value c year
  | IsPareto p => Pareto.sample_value p year
  end.

Definition generate_etree_element (d : RandomType) : etree.Element :=
  match d with
  | IsGaussian g => Gaussian.generate_etree_element g
  | IsConstant c => Constant.generate_etree_element c
  | IsPareto p => Pareto.generate_etree_element p
  end.

(** The module-level dispatch on the tag.  The chain of [if]/[elif] has no
    [else]: past it the function ends, and a Python function that ends
    without [return] returns [None]. *)
Definition create_from_etree_element (e : etree.Element) : result (option RandomType) :=
  if String.eqb (etree.tag e) "Gaussian" then
    d <-r Gaussian.create_from_etree_element e ;; Ok (Some (IsGaussian d))
  else if String.eqb (etree.tag e) "Constant" then
    d <-r Constant.create_from_etree_element e ;; Ok (Some (IsConstant d))
  else if String.eqb (etree.tag e) "Pareto" then
    d <-r Pareto.create_from_etree_element e ;; Ok (Some (IsPareto d))
  else Ok None.

End Base.

End random_type.

(* ================================================================== *)
(** ** Dynamically typed arguments *)

(** An object handed to a method that tests [isinstance(x, A)]. *)
Inductive dyn (A : Type) : Type :=
| Is (a : A)
| Other.
Arguments Is {A} a.
Arguments Other {A}.

(** The argument of [add_items] and [add_groups]: one object, or an
    [Iterable] of objects. *)
Inductive arg (A : Type) : Type :=
| One (x : dyn A)
| Many (xs : list (dyn A)).
Arguments One {A} x.
Arguments Many {A} xs.

(** [for item in items: if not isinstance(item, A): raise TypeError(msg)],
    then [list(items)]. *)
Fixpoint check_all {A} (msg : string) (xs : list (dyn A)) : result (list A) :=
  match xs with
  | [] => Ok []
  | Is a :: rest => l <-r check_all msg rest ;; Ok (a :: l)
  | Other :: _ => Raise (TypeError msg)
  end.

(** [isinstance(x, A)] first, then [isinstance(x, Iterable)]. *)
Definition check_arg {A} (msg : string) (x : arg A) : result (list A) :=
  match x with
  | One (Is a) => Ok [a]
  | Many xs => check_all msg xs
  | One Other => Raise (TypeError msg)
  end.

(** [name in names] for a name read from a document, which is [None] when
    the element carries no text. *)
Definition name_in (name : option string) (names : list string) : bool :=
  match name with
  | Some n => existsb (String.eqb n) names
  | None => false
  end.

(* ================================================================== *)
(** ** cash_flow.py *)

Module cash_flow.

Import random_type.

Module CashFlowItem.
Section CashFlowItem.

Context {F : Type} {num : PyFloat F} {txt : PyText F}.
Context {Rng : Type} {rnd : PyRandom F Rng}.

Record t : Type := make {
  name : option string;
  desc : string;
  _upfront_cost : RandomType (F:=F);
  _recurring_cost : RandomType (F:=F)
}.

(** A value a caller may assign to a cost. *)
Inductive cost_value : Type :=
| VRandomType (d : RandomType (F:=F))
| VFloat (x : F)
| VInt (z : Z)
| VBool (b : bool)
| VStr (s : string)
| VNone.

(** [isinstance(cost, (float, int))], with the number: [bool] is a subclass
    of [int]. *)
Definition as_float_or_int (cost : cost_value) : option F :=
  match cost with
  | VFloat x => Some x
  | VInt z => Some (of_int z)
  | VBool b => Some (of_int (Z.b2z b))
  | _ => None
  end.

Definition _checkCost (cost : cost_value) : result RandomType :=
  match cost with
  | VRandomType d => Ok d
  | _ => match as_float_or_int cost with
         | Some x => Ok (IsConstant (Constant.of_value x))
         | None => Raise (TypeError "cost must be a RandomType, float or int")
         end
  end.

(** The property setters: the right-hand side is evaluated, then stored. *)
Definition set_upfront_cost (upfront_cost : cost_value) : M t unit :=
  c <- lift (_checkCost upfront_cost) ;;
  self <- get ;;
  put (make (name self) (desc self) c (_recurring_cost self)).

Definition set_recurring_cost (recurring_cost : cost_value) : M t unit :=
  c <- lift (_checkCost recurring_cost) ;;
  self <- get ;;
  put (make (name self) (desc self) (_upfront_cost self) c).

Definition upfront_cost (self : t) : RandomType := _upfront_cost self.
Definition recurring_cost (self : t) : RandomType := _recurring_cost self.

(** [CashFlowItem(name, desc, upfront_cost, recurring_cost)]: the object
    exists for the caller only when [__init__] returns. *)
Definition init (name : option string) (desc : string)
    (upfront_cost recurring_cost : cost_value) : result t :=
  u <-r _checkCost upfront_cost ;;
  r <-r _checkCost recurring_cost ;;
  Ok (make name desc u r).

(** [for el in parent: cost = random_type.create_from_etree_element(el)]:
    the local keeps what the last child gave, and stays unbound when there
    is no child. *)
Fixpoint last_created (els : list etree.Element)
    (cost : option (option RandomType)) : result (option (option RandomType)) :=
  match els with
  | [] => Ok cost
  | el :: rest =>
      c <-r create_from_etree_element el ;; last_created rest (Some c)
  end.

(** Iterating over what [find] returned: [None] is not iterable. *)
Definition iter_found (e : etree.Element) (t : string) : result (list etree.Element) :=
  match etree.find e t with
  | Some c => Ok (etree.children c)
  | None => Raise (TypeError "'NoneType' object is not iterable")
  end.

(** What the dispatch returned, as the argument of the cost setter. *)
Definition as_cost (c : option RandomType) : cost_value :=
  match c with
  | Some d => VRandomType d
  | None => VNone
  end.

Definition create_from_etree_element (e : etree.Element) : result t :=
  name <-r etree.find_text e "name" ;;
  desc <-r etree.find_text e "desc" ;;
  let desc := match desc with None => "" | Some d => d end in
  ups <-r iter_found e "upfrontCost" ;;
  upfront_cost <-r last_created ups None ;;
  recs <-r iter_found e "recurringCost" ;;
  recurring_cost <-r last_created recs None ;;
  u <-r read_local upfront_cost ;;
  r <-r read_local recurring_cost ;;
  init name desc (as_cost u) (as_cost r).

Definition get_upfront_cost (self : t) : M Rng F :=
  sample_value (upfront_cost self) 0.

Definition get_recurring_cost (self : t) (year : Z) : M Rng F :=
  sample_value (recurring_cost self) year.

(** The name and the description are whatever the setters stored: the
    two assignments to [.text] are where the writer can raise. *)
Definition generate_etree_element (self : t) : result etree.Element :=
  name_element <-r etree.SubElement_text "name" (name self) ;;
  desc_element <-r etree.SubElement_text "desc" (Some (desc self)) ;;
  Ok (etree.Elem "CashFlowItem" None
        [ name_element;
          desc_element;
          etree.Elem "upfrontCost" None
            [ random_type.generate_etree_element (upfront_cost self) ];
          etree.Elem "recurringCost" None
            [ random_type.generate_etree_element (recurring_cost self) ] ]).

End CashFlowItem.
End CashFlowItem.

Module CashFlowGroup.
Section CashFlowGroup.

Context {F : Type} {num : PyFloat F} {txt : PyText F}.
Context {Rng : Type} {rnd : PyRandom F Rng}.

Record t : Type := make {
  name : option string;
  desc : string;
  _items : list (CashFlowItem.t (F:=F))
}.

Definition items (self : t) : list CashFlowItem.t := _items self.

Definition _check_items (items : arg (CashFlowItem.t (F:=F)))
  : result (list CashFlowItem.t) :=
  check_arg "Items must be a list of CashFlowItem" items.

Definition add_items (new_items : arg (CashFlowItem.t (F:=F))) : M t unit :=
  checked <- lift (_check_items new_items) ;;
  self <- get ;;
  put (make (name self) (desc self) (items self ++ checked)).

(** The setter of [items]: [self._items = []], then [add_items]. *)
Definition set_items (new_items : arg (CashFlowItem.t (F:=F))) : M t unit :=
  self <- get ;;
  put (make (name self) (desc self) []) ;;;
  add_items new_items.

Definition init (name : option string) (desc : string)
    (items : arg (CashFlowItem.t (F:=F))) : result t :=
  match set_items items (make name desc []) with
  | (Ok _, self) => Ok self
  | (Raise e, _) => Raise e
  end.

Definition create_from_etree_element (e : etree.Element) : result t :=
  name <-r etree.find_text e "name" ;;
  desc <-r etree.find_text e "desc" ;;
  let desc := match desc with None => "" | Some d => d end in
  items <-r rmap CashFlowItem.create_from_etree_element
              (etree.findall e "CashFlowItem") ;;
  init name desc (Many (map Is items)).

Definition get_items (self : t) (item_names : list string) : list CashFlowItem.t :=
  filter (fun item => name_in (CashFlowItem.name item) item_names) (items self).

Definition remove_items (item_names : list string) : M t unit :=
  self <- get ;;
  set_items (Many (map Is
    (filter (fun item => negb (name_in (CashFlowItem.name item) item_names))
            (items self)))).

Definition get_names (self : t) : list (option string) :=
  map CashFlowItem.name (items self).

Definition get_upfront_cost (self : t) : M Rng (list F) :=
  mapM CashFlowItem.get_upfront_cost (items self).

Definition get_recurring_cost (self : t) (year : Z) : M Rng (list F) :=
  mapM (fun x => CashFlowItem.get_recurring_cost x year) (items self).

Definition generate_etree_element (self : t) : result etree.Element :=
  name_element <-r etree.SubElement_text "name" (name self) ;;
  desc_element <-r etree.SubElement_text "desc" (Some (desc self)) ;;
  item_elements <-r rmap CashFlowItem.generate_etree_element (items self) ;;
  Ok (etree.Elem "CashFlowGroup" None
        (name_element :: desc_element :: item_elements)).

End CashFlowGroup.
End CashFlowGroup.

Module CashFlowSheet.
Section CashFlowSheet.

Context {F : Type} {num : PyFloat F} {txt : PyText F}.
Context {Rng : Type} {rnd : PyRandom F Rng}.

Record t : Type := make {
  _groups : list (CashFlowGroup.t (F:=F))
}.

Definition groups (self : t) : list CashFlowGroup.t := _groups self.

Definition _check_groups (groups : arg (CashFlowGroup.t (F:=F)))
  : result (list CashFlowGroup.t) :=
  check_arg "Groups must be a list of CashFlowGroup" groups.

Definition add_groups (new_groups : arg (CashFlowGroup.t (F:=F))) : M t unit :=
  checked <- lift (_check_groups new_groups) ;;
  self <- get ;;
  put (make (groups self ++ checked)).

Definition set_groups (new_groups : arg (CashFlowGroup.t (F:=F))) : M t unit :=
  put (make []) ;;;
  add_groups new_groups.

Definition init (groups : arg (CashFlowGroup.t (F:=F))) : result t :=
  match set_groups groups (make []) with
  | (Ok _, self) => Ok self
  | (Raise e, _) => Raise e
  end.

Definition create_from_etree_element (e : etree.Element) : result t :=
  groups <-r rmap CashFlowGroup.create_from_etree_element
               (etree.findall e "CashFlowGroup") ;;
  init (Many (map Is groups)).

Definition get_groups (self : t) (group_names : list string) : list CashFlowGroup.t :=
  filter (fun group => name_in (CashFlowGroup.name group) group_names) (groups self).

Definition remove_groups (group_names : list string) : M t unit :=
  self <- get ;;
  set_groups (Many (map Is
    (filter (fun group => negb (name_in (CashFlowGroup.name group) group_names))
            (groups self)))).

Definition get_names (self : t) : list (option string * list (option string)) :=
  map (fun grps => (CashFlowGroup.name grps, CashFlowGroup.get_names grps))
      (groups self).

Definition get_upfront_cost (self : t) : M Rng (list (list F)) :=
  mapM CashFlowGroup.get_upfront_cost (groups self).

Definition get_recurring_cost (self : t) (year : Z) : M Rng (list (list F)) :=
  mapM (fun x => CashFlowGroup.get_recurring_cost x year) (groups self).

Definition get_cash_flow (self : t) (years : Z)
  : M Rng (list (list (list F)) * list F) :=
  upfront <- get_upfront_cost self ;;
  recurring <- mapM (get_recurring_cost self) (py_range 1 (years + 1)) ;;
  let total_cash_flow := [upfront] ++ recurring in
  let net_cash_flow :=
    map (fun year => py_sum (map py_sum year)) total_cash_flow in
  ret (total_cash_flow, net_cash_flow).

Definition generate_etree_element (self : t) : result etree.Element :=
  group_elements <-r rmap CashFlowGroup.generate_etree_element (groups self) ;;
  Ok (etree.Elem "CashFlowSheet" None group_elements).

End CashFlowSheet.
End CashFlowSheet.

Module Summary.
Section Summary.

Context {F : Type} {num : PyFloat F} {txt : PyText F}.
Context {Rng : Type} {rnd : PyRandom F Rng} {np : Numpy F}.

(** The two cached attributes do not exist before the first sampling. *)
Record t : Type := make {
  cash_flow_sheet : CashFlowSheet.t (F:=F);
  interest_rate : F;
  years : Z;
  iterations : Z;
  sampled : bool;
  _total_cash_flow : option (list (list (list F)));
  _net_cash_flow : option (list F)
}.

(** A method of a summary runs on the object and on the generator. *)
Definition state : Type := (t * Rng)%type.

Definition self : M state t := fun st => (Ok (fst st), st).

Definition set_self (s : t) : M state unit := fun st => (Ok tt, (s, snd st)).

(** A sampling step: it touches the generator only. *)
Definition with_rng {A} (m : M Rng A) : M state A :=
  fun st => let (r, g) := m (snd st) in (r, (fst st, g)).

(** The default of [iterations] in [__init__]. *)
Definition default_iterations : Z := 10000.

Definition init (cash_flow_sheet : CashFlowSheet.t (F:=F)) (interest_rate : F)
    (years iterations : Z) : t :=
  make cash_flow_sheet interest_rate years iterations false None None.

Definition create_from_etree_element (e : etree.Element) : result t :=
  sheet <-r match etree.find e "CashFlowSheet" with
            | Some c => CashFlowSheet.create_from_etree_element c
            | None => Raise AttributeError
            end ;;
  rate <-r (x <-r etree.find_text e "InterestRate" ;; float_of x) ;;
  years <-r (x <-r etree.find_text e "Years" ;; y <-r float_of x ;; py_floor y) ;;
  Ok (init sheet rate years default_iterations).

Definition generate_etree_element (s : t) : result etree.Element :=
  sheet_element <-r CashFlowSheet.generate_etree_element (cash_flow_sheet s) ;;
  Ok (etree.Elem "Summary" None
        [ etree.leaf "InterestRate" (Some (py_str (interest_rate s)));
          etree.leaf "Years" (Some (str_int (years s)));
          etree.leaf "Iterations" (Some (str_int (iterations s)));
          sheet_element ]).

Definition sample_cash_flow : M state unit :=
  s <- self ;;
  sampled_flows <- with_rng (CashFlowSheet.get_cash_flow (cash_flow_sheet s) (years s)) ;;
  s <- self ;;
  set_self (make (cash_flow_sheet s) (interest_rate s) (years s) (iterations s)
                 true (Some (fst sampled_flows)) (Some (snd sampled_flows))).

(** [if not self.sampled: self.sample_cash_flow()] *)
Definition sample_if_needed : M state unit :=
  s <- self ;;
  if negb (sampled s) then sample_cash_flow else ret tt.

(** The property [total_cash_flow] and its setter. *)
Definition total_cash_flow : M state (list (list (list F))) :=
  sample_if_needed ;;;
  s <- self ;;
  lift (read_attr (_total_cash_flow s)).

Definition set_total_cash_flow {A} (input : A) : M state unit :=
  raise (RuntimeError "Total cash flow cannot be set externally").

(** The property [net_cash_flow] and its setter. *)
Definition net_cash_flow : M state (list F) :=
  sample_if_needed ;;;
  s <- self ;;
  lift (read_attr (_net_cash_flow s)).

Definition set_net_cash_flow {A} (input : A) : M state unit :=
  raise (RuntimeError "Net cash flow cannot be set externally").

Definition get_IRR : M state F :=
  sample_if_needed ;;;
  ncf <- net_cash_flow ;;
  ret (np_irr ncf).

Definition get_NPV : M state F :=
  sample_if_needed ;;;
  s <- self ;;
  ncf <- net_cash_flow ;;
  ret (np_npv (interest_rate s) ncf).

(** [for year in range(self.years): if cumsum[year] > 0: ...; break] with
    [first_positive_year] preset to [default]. *)
Fixpoint first_positive (cumsum_cash_flow : list F) (year_range : list Z)
    (default : Z) : result Z :=
  match year_range with
  | [] => Ok default
  | year :: rest =>
      c <-r py_getitem cumsum_cash_flow year ;;
      if fltb (of_int 0) c then Ok year
      else first_positive cumsum_cash_flow rest default
  end.

Definition get_payback_period : M state F :=
  sample_if_needed ;;;
  ncf <- net_cash_flow ;;
  let cumsum_cash_flow := np_cumsum ncf in
  s <- self ;;
  first_positive_year <-
    lift (first_positive cumsum_cash_flow (py_range 0 (years s)) (years s)) ;;
  let complete_years := first_positive_year - 1 in
  c <- lift (py_getitem cumsum_cash_flow complete_years) ;;
  ncf' <- net_cash_flow ;;
  n <- lift (py_getitem ncf' first_positive_year) ;;
  let fractional_year := fabs (fdiv c n) in
  ret (fadd (of_int complete_years) fractional_year).

End Summary.
End Summary.

End cash_flow.

(* ================================================================== *)
(** ** Concrete stand-ins for the libraries, for running the model *)

(** A generator that counts its draws: the k-th draw is the location
    parameter moved by k.  It makes every draw visible in the state. *)
#[export] Instance counting_rng {F : Type} {num : PyFloat F} : PyRandom F nat := {
  gauss := fun mu _ k => (Ok (fadd mu (of_int (Z.of_nat k))), S k);
  paretovariate := fun _ k => (Ok (fadd (of_int 1) (of_int (Z.of_nat k))), S k)
}.

Module Binary64Text.

(** [float(s)] and [str(x)] of CPython on the literals the examples use;
    every other string is a malformed literal here. *)
Definition literals : list (string * float) :=
  [ ("0.0", 0%float); ("0.1", 0.1%float); ("0.5", 0.5%float);
    ("1.0", 1%float); ("2.0", 2%float); ("3.0", 3%float); ("5.0", 5%float);
    ("7.0", 7%float); ("10.0", 10%float); ("30.0", 30%float);
    ("-100.0", (-100)%float); ("inf", infinity);
    ("0", 0%float); ("1", 1%float); ("4", 4%float); ("10", 10%float) ].

Definition float_of_string (s : string) : result float :=
  match List.find (fun p => String.eqb (fst p) s) literals with
  | Some p => Ok (snd p)
  | None => Raise ValueError
  end.

Definition string_of_float (x : float) : string :=
  match List.find (fun p => PrimFloat.eqb (snd p) x) literals with
  | Some p => fst p
  | None => "nan"
  end.

(** [math.floor]: the integer part of a finite double, rounded down. *)
Definition floor (x : float) : result Z :=
  match Prim2SF x with
  | S754_zero _ => Ok 0
  | S754_infinity _ => Raise OverflowError
  | S754_nan => Raise ValueError
  | S754_finite s m e => Ok (Z.shiftl (if s then Zneg m else Zpos m) e)
  end.

End Binary64Text.

#[export] Instance binary64_text : PyText float := {
  py_str := Binary64Text.string_of_float;
  py_float := Binary64Text.float_of_string;
  py_floor := Binary64Text.floor
}.

(** The three parameters are not modelled on doubles: where no root is
    found [np.irr] answers nan, and the stand-in answers nan throughout.
    No statement on doubles rests on [np.irr], on [sum] or on the power. *)
#[export] Instance no_root : Numpy float := {
  np_irr := fun _ => PrimFloat.nan;
  np_sum := fun _ => PrimFloat.nan;
  np_power := fun _ _ => PrimFloat.nan
}.


Module Examples.

Import random_type cash_flow.

(** [Gaussian(mu=5, sigma=2, start_year=3, end_year=7)] *)
Definition gaussian_3_7 : RandomType (F:=float) :=
  IsGaussian (Gaussian.make 5%float 2%float 3%float 7%float).

(** [Constant(value=30, start_year=1)] *)
Definition constant_30 : Constant.t (F:=float) :=
  Constant.make 30%float 1%float infinity.

(** One item that costs -100 upfront and returns 30 in every later year. *)
Definition item_a : CashFlowItem.t (F:=float) :=
  CashFlowItem.make (Some "a") "first"
    (IsConstant (Constant.of_value (-100)%float))
    (IsConstant (Constant.of_value 30%float)).

Definition item_b : CashFlowItem.t (F:=float) :=
  CashFlowItem.make (Some "b") ""
    gaussian_3_7
    (IsPareto (Pareto.make 2%float 0%float infinity)).

Definition group_ab : CashFlowGroup.t (F:=float) :=
  CashFlowGroup.make (Some "g") "" [item_a; item_b; item_a].

Definition sheet_a : CashFlowSheet.t (F:=float) :=
  CashFlowSheet.make [CashFlowGroup.make (Some "g") "" [item_a]].

(** [Summary(sheet_a, interest_rate=0.1, years=4)], not yet sampled. *)
Definition summary_a : Summary.t (F:=float) :=
  Summary.init sheet_a 0.1%float 4 Summary.default_iterations.

(** [Summary(CashFlowSheet(), interest_rate=0.1, years=10, iterations=500)] *)
Definition summary_500 : Summary.t (F:=float) :=
  Summary.init (CashFlowSheet.make []) 0.1%float 10 500.

(** [summary_a] after one sampling: its net cash flow is
    [-100, 30, 30, 30, 30]. *)
Definition sampled_a : Summary.t (F:=float) :=
  Eval vm_compute in fst (snd (Summary.sample_cash_flow (summary_a, 0%nat))).

(** A sheet that is in profit from year 0: 50 upfront, -20 in year 1 and
    10 in year 2. *)
Definition sheet_b : CashFlowSheet.t (F:=float) :=
  CashFlowSheet.make
    [ CashFlowGroup.make (Some "g") ""
        [ CashFlowItem.make (Some "sale") ""
            (IsConstant (Constant.of_value 50%float))
            (IsConstant (Constant.make (-20)%float 1%float 1%float));
          CashFlowItem.make (Some "refund") ""
            (IsConstant (Constant.of_value 0%float))
            (IsConstant (Constant.make 10%float 2%float 2%float)) ] ].

Definition summary_b : Summary.t (F:=float) :=
  Summary.init sheet_b 0.1%float 2 Summary.default_iterations.

(** [summary_b] after one sampling: its net cash flow is [50, -20, 10]. *)
Definition sampled_b : Summary.t (F:=float) :=
  Eval vm_compute in fst (snd (Summary.sample_cash_flow (summary_b, 0%nat))).






(** A summary whose sheet draws from the generator: a Gaussian that is
    active in years 3 to 7 and a Pareto that is always active. *)
Definition summary_g : Summary.t (F:=float) :=
  Summary.init (CashFlowSheet.make [group_ab]) 0.1%float 4
    Summary.default_iterations.

Definition sampled_g : Summary.t (F:=float) :=
  Eval vm_compute in fst (snd (Summary.sample_cash_flow (summary_g, 0%nat))).

(** A record of a family the module does not know. *)
Definition uniform_record : etree.Element :=
  etree.Elem "Uniform" None
    [ etree.leaf "low" (Some "0.0"); etree.leaf "high" (Some "1.0");
      etree.leaf "startYear" (Some ""); etree.leaf "endYear" (Some "") ].

(** [Constant(30, start_year=1, end_year=7)] and
    [Pareto(2, start_year=1, end_year=7)]: no bound at its default. *)
Definition constant_1_7 : RandomType (F:=float) :=
  IsConstant (Constant.make 30%float 1%float 7%float).

Definition pareto_1_7 : RandomType (F:=float) :=
  IsPareto (Pareto.make 2%float 1%float 7%float).

Definition item_w : CashFlowItem.t (F:=float) :=
  CashFlowItem.make (Some "w") "plant" gaussian_3_7 constant_1_7.

Definition item_v : CashFlowItem.t (F:=float) :=
  CashFlowItem.make (Some "v") "" constant_1_7 pareto_1_7.

Definition group_w : CashFlowGroup.t (F:=float) :=
  CashFlowGroup.make (Some "gw") "works" [item_w; item_v].

Definition sheet_w : CashFlowSheet.t (F:=float) :=
  CashFlowSheet.make [group_w; CashFlowGroup.make (Some "empty") "" []].

(** An item whose description holds the control character U+0001, in a
    group and in a sheet of their own. *)
Definition item_ctl : CashFlowItem.t (F:=float) :=
  CashFlowItem.make (Some "c")
    (String (Ascii.ascii_of_nat 1) "plant") constant_1_7 pareto_1_7.

Definition group_ctl : CashFlowGroup.t (F:=float) :=
  CashFlowGroup.make (Some "gc") "" [item_w; item_ctl].

Definition sheet_ctl : CashFlowSheet.t (F:=float) :=
  CashFlowSheet.make [group_w; group_ctl].

(** [Summary(sheet_w, interest_rate=0.5, years=4, iterations=500)] *)
Definition summary_w : Summary.t (F:=float) :=
  Summary.init sheet_w 0.5%float 4 500.

(** A summary with the horizon -1, after one sampling. *)
Definition sampled_negative : Summary.t (F:=float) :=
  Eval vm_compute in
    fst (snd (Summary.sample_cash_flow
                (Summary.init sheet_a 0.1%float (-1) Summary.default_iterations,
                 0%nat))).

(** [Summary(sheet_a, 0.1, years=2)] sampled once, and then its horizon
    set to 9 without a new sampling: the cache still holds
    [-100, 30, 30]. *)
Definition stale_a : Summary.t (F:=float) :=
  Eval vm_compute in
    (let s := fst (snd (Summary.sample_cash_flow
                          (Summary.init sheet_a 0.1%float 2
                             Summary.default_iterations, 0%nat))) in
     Summary.make (Summary.cash_flow_sheet s) (Summary.interest_rate s) 9
       (Summary.iterations s) (Summary.sampled s)
       (Summary._total_cash_flow s) (Summary._net_cash_flow s)).

(** What a writer returned; an element without a tag where it raised. *)
Definition written (r : result etree.Element) : etree.Element :=
  match r with
  | Ok e => e
  | Raise _ => etree.Elem "" None []
  end.

(** An item element whose upfront cost is a record of an unknown family,
    and a summary document that holds it. *)
Definition item_uniform : etree.Element :=
  etree.Elem "CashFlowItem" None
    [ etree.leaf "name" (Some "u"); etree.leaf "desc" None;
      etree.Elem "upfrontCost" None [uniform_record];
      etree.Elem "recurringCost" None
        [ random_type.generate_etree_element constant_1_7 ] ].

Definition group_uniform : etree.Element :=
  etree.Elem "CashFlowGroup" None
    [ etree.leaf "name" (Some "g"); etree.leaf "desc" None;
      written (CashFlowItem.generate_etree_element item_w); item_uniform ].

Definition sheet_uniform : etree.Element :=
  etree.Elem "CashFlowSheet" None
    [ written (CashFlowGroup.generate_etree_element group_w); group_uniform ].

Definition summary_uniform : etree.Element :=
  etree.Elem "Summary" None
    [ etree.leaf "InterestRate" (Some "0.1"); etree.leaf "Years" (Some "4");
      etree.leaf "Iterations" (Some "10"); sheet_uniform ].

(** A constant record whose two bound elements carry no text. *)
Definition constant_no_bounds : etree.Element :=
  etree.Elem "Constant" None
    [ etree.leaf "value" (Some "5.0");
      etree.leaf "startYear" None; etree.leaf "endYear" None ].

(** An item element whose upfront cost holds two records. *)
Definition item_two_records : etree.Element :=
  etree.Elem "CashFlowItem" None
    [ etree.leaf "name" (Some "w"); etree.leaf "desc" None;
      etree.Elem "upfrontCost" None
        [ random_type.generate_etree_element pareto_1_7;
          random_type.generate_etree_element gaussian_3_7 ];
      etree.Elem "recurringCost" None
        [ random_type.generate_etree_element constant_1_7 ] ].

End Examples.

(* ================================================================== *)
(** ** Vocabulary of the statements *)

Import random_type cash_flow.

Section Vocabulary.

Context {F : Type} {num : PyFloat F}.
Context {Rng : Type} {rnd : PyRandom F Rng}.

(** What an assignment of [v] to a cost is expected to store: the
    distribution itself, a constant over the default interval [0, +inf)
    for a plain number, nothing (the assignment is rejected) otherwise. *)
Definition stored_cost (v : CashFlowItem.cost_value (F:=F)) : option RandomType :=
  match v with
  | CashFlowItem.VRandomType d => Some d
  | CashFlowItem.VFloat x =>
      Some (IsConstant (Constant.make x (of_int 0) finf))
  | CashFlowItem.VInt z =>
      Some (IsConstant (Constant.make (of_int z) (of_int 0) finf))
  | CashFlowItem.VBool b =>
      Some (IsConstant (Constant.make (of_int (Z.b2z b)) (of_int 0) finf))
  | CashFlowItem.VStr _ => None
  | CashFlowItem.VNone => None
  end.

(** The items of a group that [remove_items] keeps. *)
Definition kept_items (names : list string) (g : CashFlowGroup.t (F:=F))
  : list CashFlowItem.t :=
  filter (fun item => negb (name_in (CashFlowItem.name item) names))
         (CashFlowGroup.items g).

Definition kept_groups (names : list string) (s : CashFlowSheet.t (F:=F))
  : list CashFlowGroup.t :=
  filter (fun group => negb (name_in (CashFlowGroup.name group) names))
         (CashFlowSheet.groups s).

(** The summary [s] once a sampling has stored [flows]. *)
Definition with_flows (s : Summary.t (F:=F))
    (flows : list (list (list F)) * list F) : Summary.t :=
  Summary.make (Summary.cash_flow_sheet s) (Summary.interest_rate s)
    (Summary.years s) (Summary.iterations s) true
    (Some (fst flows)) (Some (snd flows)).

(** Running [m] after one call of [sample_cash_flow]. *)
Definition after_sampling {A} (m : M Summary.state A) : M Summary.state A :=
  Summary.sample_cash_flow ;;; m.

(** [m] reads the cache of a sampled summary: neither the summary nor the
    generator changes, and the answer does not depend on the generator. *)
Definition cache_read {A} (m : M (Summary.state (F:=F) (Rng:=Rng)) A) : Prop :=
  forall s g, Summary.sampled s = true ->
    snd (m (s, g)) = (s, g) /\ forall g2, fst (m (s, g2)) = fst (m (s, g)).

(** [m] samples on demand: on an unsampled summary it is one call of
    [sample_cash_flow] followed by [m] itself, and on a sampled summary it
    is a cache read. *)
Definition lazy {A} (m : M (Summary.state (F:=F) (Rng:=Rng)) A) : Prop :=
  (forall s g, Summary.sampled s = false -> m (s, g) = after_sampling m (s, g))
  /\ cache_read m.

(** The payback period as a function of the horizon and of the cached
    net cash flow. *)
Definition payback_of (years : Z) (ncf : list F) : result F :=
  let cumsum_cash_flow := np_cumsum ncf in
  first_positive_year <-r
    Summary.first_positive cumsum_cash_flow (py_range 0 years) years ;;
  c <-r py_getitem cumsum_cash_flow (first_positive_year - 1) ;;
  n <-r py_getitem ncf first_positive_year ;;
  Ok (fadd (of_int (first_positive_year - 1)) (fabs (fdiv c n))).

(** The cumulative flow is positive at index [j]. *)
Definition positive_at (cumsum : list F) (j : nat) : Prop :=
  exists c, nth_error cumsum j = Some c /\ (of_int 0 < c)%F.

(** [t] is the first index, from 0 to [years], at which the cumulative
    flow is positive, and [years] when there is none. *)
Definition first_positive_year (cumsum : list F) (years t : nat) : Prop :=
  (t <= years)%nat
  /\ (forall j, (j < t)%nat -> ~ positive_at cumsum j)
  /\ (positive_at cumsum t \/ t = years).

End Vocabulary.

(** The sum of the rationals [f 0], ..., [f n]. *)
Fixpoint sigma (f : nat -> Q) (n : nat) : Q :=
  match n with
  | O => f O
  | S k => (sigma f k + f (S k))%Q
  end.


Section WritingVocabulary.

Context {F : Type} {num : PyFloat F} {txt : PyText F}.

(** [float(str(x))] gives [x] back. *)
Definition survives_text (x : F) : Prop := py_float (py_str x) = Ok x.

(** The numbers a distribution writes into its record. *)
Definition numbers_of (d : RandomType (F:=F)) : list F :=
  match d with
  | IsGaussian g =>
      [Gaussian.mu g; Gaussian.sigma g; Gaussian.start_year g; Gaussian.end_year g]
  | IsConstant c =>
      [Constant.value c; Constant.start_year c; Constant.end_year c]
  | IsPareto p =>
      [Pareto.alpha p; Pareto.start_year p; Pareto.end_year p]
  end.

(** A distribution whose bounds are both written out (neither compares
    equal to its default) and whose numbers survive [str] and [float]. *)
Definition writable (d : RandomType (F:=F)) : Prop :=
  feqb (start_year d) (of_int 0) = false
  /\ feqb (end_year d) finf = false
  /\ Forall survives_text (numbers_of d).

(** A name and a description that lxml stores: XML-compatible text. *)
Definition text_accepted (name : option string) (desc : string) : bool :=
  match name with
  | Some n => etree._is_valid_xml_utf8 n
  | None => true
  end
  && etree._is_valid_xml_utf8 desc.

Definition item_accepted (i : CashFlowItem.t (F:=F)) : bool :=
  text_accepted (CashFlowItem.name i) (CashFlowItem.desc i).

Definition group_accepted (g : CashFlowGroup.t (F:=F)) : bool :=
  text_accepted (CashFlowGroup.name g) (CashFlowGroup.desc g)
  && forallb item_accepted (CashFlowGroup.items g).

Definition sheet_accepted (s : CashFlowSheet.t (F:=F)) : bool :=
  forallb group_accepted (CashFlowSheet.groups s).

Definition item_writable (i : CashFlowItem.t (F:=F)) : Prop :=
  text_accepted (CashFlowItem.name i) (CashFlowItem.desc i) = true
  /\ writable (CashFlowItem.upfront_cost i)
  /\ writable (CashFlowItem.recurring_cost i).

Definition group_writable (g : CashFlowGroup.t (F:=F)) : Prop :=
  text_accepted (CashFlowGroup.name g) (CashFlowGroup.desc g) = true
  /\ Forall item_writable (CashFlowGroup.items g).

Definition sheet_writable (s : CashFlowSheet.t (F:=F)) : Prop :=
  Forall group_writable (CashFlowSheet.groups s).

(** The horizon survives [str], [float] and [math.floor]. *)
Definition years_survive (years : Z) : Prop :=
  (y <-r py_float (str_int years) ;; py_floor y) = Ok years.

Definition summary_writable (s : Summary.t (F:=F)) : Prop :=
  sheet_writable (Summary.cash_flow_sheet s)
  /\ survives_text (Summary.interest_rate s)
  /\ years_survive (Summary.years s).

(** Every cost of the sheet is a [Constant]. *)
Definition is_constant (d : RandomType (F:=F)) : bool :=
  match d with
  | IsConstant _ => true
  | _ => false
  end.

Definition item_constant (i : CashFlowItem.t (F:=F)) : bool :=
  is_constant (CashFlowItem.upfront_cost i)
  && is_constant (CashFlowItem.recurring_cost i).

Definition sheet_constant (s : CashFlowSheet.t (F:=F)) : bool :=
  forallb (fun g => forallb item_constant (CashFlowGroup.items g))
          (CashFlowSheet.groups s).

(** The number of items of each group, in the order of the groups. *)
Definition sheet_shape (s : CashFlowSheet.t (F:=F)) : list nat :=
  map (fun g => List.length (CashFlowGroup.items g)) (CashFlowSheet.groups s).

End WritingVocabulary.

(* ================================================================== *)
(** * Properties *)

(** ** The active interval of a distribution *)

Section ActiveInterval.

Context {F : Type} {num : PyFloat F}.
Context {Rng : Type} {rnd : PyRandom F Rng}.

Lemma active_iff (s e : F) (year : Z) :
  active s e year = true <-> (s <= of_int year)%F /\ (of_int year <= e)%F.
Proof.
  unfold active. rewrite andb_true_iff. tauto.
Qed.

Lemma inactive_iff (s e : F) (year : Z) :
  active s e year = false <-> ~ ((s <= of_int year)%F /\ (of_int year <= e)%F).
Proof.
  rewrite <- active_iff. destruct (active s e year); split; intro Hx.
  - discriminate.
  - exfalso. apply Hx. reflexivity.
  - intro Hy. discriminate.
  - reflexivity.
Qed.

Lemma sample_value_inactive (d : RandomType) (year : Z) (g : Rng) :
  active (start_year d) (end_year d) year = false ->
  sample_value d year g = (Ok fzero, g).
Proof.
  intros Hout. destruct d as [d | d | d]; simpl in Hout |- *.
  - unfold Gaussian.sample_value. rewrite Hout. reflexivity.
  - unfold Constant.sample_value. rewrite Hout. reflexivity.
  - unfold Pareto.sample_value. rewrite Hout. reflexivity.
Qed.

(** C1. Outside the inclusive interval [start_year, end_year] every
    variant of a distribution samples exactly 0.0: the generator is not
    consulted (its state comes back as it was, so the answer is the same
    under every generator state) and the shape parameters play no part. *)
Theorem sample_value_outside_interval :
  forall (d : RandomType) (year : Z) (g : Rng),
    ~ ((start_year d <= of_int year)%F /\ (of_int year <= end_year d)%F) ->
    sample_value d year g = (Ok fzero, g).
Proof.
  intros d year g Hout.
  apply sample_value_inactive. apply inactive_iff. exact Hout.
Qed.

(** C8. Inside its active interval a constant samples its stored value,
    whatever the state of the generator, and leaves the generator alone. *)
Theorem Constant_sample_value_inside :
  forall (c : Constant.t) (year : Z) (g : Rng),
    (Constant.start_year c <= of_int year)%F ->
    (of_int year <= Constant.end_year c)%F ->
    Constant.sample_value c year g = (Ok (Constant.value c), g)
    /\ sample_value (IsConstant c) year g = (Ok (Constant.value c), g).
Proof.
  intros c year g Hlo Hhi.
  assert (Hact : active (Constant.start_year c) (Constant.end_year c) year = true).
  { apply active_iff. split; assumption. }
  simpl. unfold Constant.sample_value. rewrite Hact. split; reflexivity.
Qed.

End ActiveInterval.

(** A year after the interval of [Gaussian(5, 2, 3, 7)], a year before the
    interval of [Constant(30, start_year=1)]. *)
Lemma sample_value_outside_interval_witness :
  sample_value Examples.gaussian_3_7 10 7%nat = (Ok 0%float, 7%nat)
  /\ sample_value (IsConstant Examples.constant_30) 0 7%nat = (Ok 0%float, 7%nat).
Proof.
  split.
  - refine (sample_value_outside_interval Examples.gaussian_3_7 10 7%nat _).
    vm_compute. intros [_ Hhi]. discriminate Hhi.
  - refine (sample_value_outside_interval (IsConstant Examples.constant_30) 0 7%nat _).
    vm_compute. intros [Hlo _]. discriminate Hlo.
Defined.

Lemma Constant_sample_value_inside_witness :
  Constant.sample_value Examples.constant_30 1 7%nat = (Ok 30%float, 7%nat)
  /\ sample_value (IsConstant Examples.constant_30) 1 7%nat = (Ok 30%float, 7%nat).
Proof.
  refine (Constant_sample_value_inside Examples.constant_30 1 7%nat _ _);
    vm_compute; reflexivity.
Defined.

(** *** The order of doubles

    On IEEE doubles a year before the start of the interval, or after its
    end, fails the test of [sample_value]: [x < y] excludes [y <= x]. *)



(** ** Assigning a cost *)

Section Costs.

Context {F : Type} {num : PyFloat F}.

Lemma _checkCost_stored (v : CashFlowItem.cost_value (F:=F)) :
  CashFlowItem._checkCost v =
  match stored_cost v with
  | Some d => Ok d
  | None => Raise (TypeError "cost must be a RandomType, float or int")
  end.
Proof.
  destruct v; reflexivity.
Qed.

(** C6. Assigning to [upfront_cost] or [recurring_cost]: a distribution
    is stored as it is, an int or a float is stored as a Constant of that
    value over [0, +inf), and any other value raises TypeError and leaves
    the item, the stored cost included, as it was. *)
Theorem cost_setters_check_the_cost :
  forall (item : CashFlowItem.t) (v : CashFlowItem.cost_value (F:=F)),
    CashFlowItem.set_upfront_cost v item =
      match stored_cost v with
      | Some d =>
          (Ok tt, CashFlowItem.make (CashFlowItem.name item) (CashFlowItem.desc item)
                    d (CashFlowItem.recurring_cost item))
      | None =>
          (Raise (TypeError "cost must be a RandomType, float or int"), item)
      end
    /\ CashFlowItem.set_recurring_cost v item =
      match stored_cost v with
      | Some d =>
          (Ok tt, CashFlowItem.make (CashFlowItem.name item) (CashFlowItem.desc item)
                    (CashFlowItem.upfront_cost item) d)
      | None =>
          (Raise (TypeError "cost must be a RandomType, float or int"), item)
      end.
Proof.
  intros item v.
  unfold CashFlowItem.set_upfront_cost, CashFlowItem.set_recurring_cost,
    bind, lift, get, put.
  rewrite _checkCost_stored.
  destruct (stored_cost v) as [d | ]; split; reflexivity.
Qed.

End Costs.

(** ** Removal by name *)

Section Removal.

Context {F : Type} {num : PyFloat F}.

Lemma check_all_Is {A : Type} (msg : string) (l : list A) :
  check_all msg (map Is l) = Ok l.
Proof.
  induction l as [| a l IH]; simpl.
  - reflexivity.
  - rewrite IH. reflexivity.
Qed.

Lemma filter_none_dropped {A : Type} (keep : A -> bool) (l : list A) :
  (forall a, In a l -> keep a = true) -> filter keep l = l.
Proof.
  induction l as [| a l IH]; intros Hall; simpl.
  - reflexivity.
  - rewrite (Hall a (or_introl eq_refl)).
    f_equal. apply IH. intros b Hb. apply Hall. right. exact Hb.
Qed.

Lemma name_in_spec (n : option string) (names : list string) :
  name_in n names = true <-> exists s, n = Some s /\ In s names.
Proof.
  destruct n as [s | ]; simpl.
  - rewrite existsb_exists. split.
    + intros [x [Hin Heq]]. apply String.eqb_eq in Heq. subst x.
      exists s. split; [reflexivity | exact Hin].
    + intros [x [Heq Hin]]. inversion Heq; subst x.
      exists s. split; [exact Hin | apply String.eqb_refl].
  - split; [discriminate | intros [s [Heq _]]; discriminate].
Qed.

Lemma kept_In {A : Type} (nm : A -> option string) (names : list string)
    (l : list A) (x : A) :
  In x (filter (fun a => negb (name_in (nm a) names)) l) <->
  In x l /\ ~ (exists n, nm x = Some n /\ In n names).
Proof.
  rewrite filter_In, negb_true_iff. split.
  - intros [Hin Hk]. split; [exact Hin | ].
    intros Hex. apply name_in_spec in Hex. congruence.
  - intros [Hin Hnot]. split; [exact Hin | ].
    destruct (name_in (nm x) names) eqn:E; [ | reflexivity].
    exfalso. apply Hnot. apply name_in_spec. exact E.
Qed.

Lemma kept_all {A : Type} (nm : A -> option string) (names : list string)
    (l : list A) :
  (forall a n, In a l -> nm a = Some n -> ~ In n names) ->
  filter (fun a => negb (name_in (nm a) names)) l = l.
Proof.
  intros Hnone. apply filter_none_dropped.
  intros a Hin. apply negb_true_iff.
  destruct (name_in (nm a) names) eqn:E; [ | reflexivity].
  apply name_in_spec in E. destruct E as [n [Hn Hmem]].
  exfalso. exact (Hnone a n Hin Hn Hmem).
Qed.

Lemma remove_items_run (names : list string) (g : CashFlowGroup.t (F:=F)) :
  CashFlowGroup.remove_items names g =
  (Ok tt, CashFlowGroup.make (CashFlowGroup.name g) (CashFlowGroup.desc g)
            (kept_items names g)).
Proof.
  unfold CashFlowGroup.remove_items, CashFlowGroup.set_items,
    CashFlowGroup.add_items, CashFlowGroup._check_items, check_arg,
    bind, lift, get, put.
  rewrite check_all_Is. reflexivity.
Qed.

Lemma remove_groups_run (names : list string) (s : CashFlowSheet.t (F:=F)) :
  CashFlowSheet.remove_groups names s =
  (Ok tt, CashFlowSheet.make (kept_groups names s)).
Proof.
  unfold CashFlowSheet.remove_groups, CashFlowSheet.set_groups,
    CashFlowSheet.add_groups, CashFlowSheet._check_groups, check_arg,
    bind, lift, get, put.
  rewrite check_all_Is. reflexivity.
Qed.

(** C9. [remove_items] (and [remove_groups] on a sheet) never raises; what
    is left is the old sequence, in its order, without the elements whose
    name is among the given names; and when no element carries one of the
    names the collection comes back unchanged. *)
Theorem remove_by_name_drops_exactly_the_named :
  forall (names : list string),
    (forall g : CashFlowGroup.t (F:=F),
        exists g',
          CashFlowGroup.remove_items names g = (Ok tt, g')
          /\ CashFlowGroup.name g' = CashFlowGroup.name g
          /\ CashFlowGroup.desc g' = CashFlowGroup.desc g
          /\ CashFlowGroup.items g' =
             filter (fun item => negb (name_in (CashFlowItem.name item) names))
                    (CashFlowGroup.items g)
          /\ (forall item, In item (CashFlowGroup.items g') <->
                In item (CashFlowGroup.items g)
                /\ ~ (exists n, CashFlowItem.name item = Some n /\ In n names))
          /\ ((forall item n, In item (CashFlowGroup.items g) ->
                 CashFlowItem.name item = Some n -> ~ In n names) ->
              g' = g))
    /\ (forall s : CashFlowSheet.t (F:=F),
        exists s',
          CashFlowSheet.remove_groups names s = (Ok tt, s')
          /\ CashFlowSheet.groups s' =
             filter (fun group => negb (name_in (CashFlowGroup.name group) names))
                    (CashFlowSheet.groups s)
          /\ (forall group, In group (CashFlowSheet.groups s') <->
                In group (CashFlowSheet.groups s)
                /\ ~ (exists n, CashFlowGroup.name group = Some n /\ In n names))
          /\ ((forall group n, In group (CashFlowSheet.groups s) ->
                 CashFlowGroup.name group = Some n -> ~ In n names) ->
              s' = s)).
Proof.
  intros names. split.
  - intros g. exists (CashFlowGroup.make (CashFlowGroup.name g)
                        (CashFlowGroup.desc g) (kept_items names g)).
    split; [apply remove_items_run | ].
    split; [reflexivity | ]. split; [reflexivity | ]. split; [reflexivity | ].
    split.
    + intros item. apply kept_In.
    + intros Hnone. unfold kept_items. rewrite (kept_all _ _ _ Hnone).
      destruct g; reflexivity.
  - intros s. exists (CashFlowSheet.make (kept_groups names s)).
    split; [apply remove_groups_run | ].
    split; [reflexivity | ]. split.
    + intros group. apply kept_In.
    + intros Hnone. unfold kept_groups. rewrite (kept_all _ _ _ Hnone).
      destruct s; reflexivity.
Qed.

End Removal.

(** Removing the absent name "c" from the group [a; b; a] changes nothing;
    removing "a" leaves [b]. *)
Lemma remove_by_name_witness :
  CashFlowGroup.remove_items ["c"] Examples.group_ab = (Ok tt, Examples.group_ab)
  /\ (exists g',
        CashFlowGroup.remove_items ["a"] Examples.group_ab = (Ok tt, g')
        /\ CashFlowGroup.items g' = [Examples.item_b]).
Proof.
  split.
  - destruct (proj1 (remove_by_name_drops_exactly_the_named (F:=float) ["c"])
                Examples.group_ab)
      as [g' [Hrun [_ [_ [_ [_ Hsame]]]]]].
    rewrite Hrun. f_equal. apply Hsame.
    intros item n Hin Hname Hmem. simpl in Hmem.
    destruct Hmem as [Hc | []]. subst n.
    simpl in Hin. destruct Hin as [Hi | [Hi | [Hi | []]]]; subst item;
      discriminate Hname.
  - destruct (proj1 (remove_by_name_drops_exactly_the_named (F:=float) ["a"])
                Examples.group_ab)
      as [g' [Hrun [_ [_ [Hitems _]]]]].
    exists g'. split; [exact Hrun | ]. rewrite Hitems. reflexivity.
Defined.

(** ** Reading a distribution record *)

Section Dispatch.

Context {F : Type} {num : PyFloat F} {txt : PyText F}.

Lemma dispatch_falls_through (e : etree.Element) :
  String.eqb (etree.tag e) "Gaussian" = false ->
  String.eqb (etree.tag e) "Constant" = false ->
  String.eqb (etree.tag e) "Pareto" = false ->
  random_type.create_from_etree_element (F:=F) e = Ok None.
Proof.
  intros Hg Hc Hp. unfold random_type.create_from_etree_element.
  rewrite Hg, Hc, Hp. reflexivity.
Qed.

(** C5, as the code has it. For a record whose tag is none of Gaussian,
    Constant and Pareto the tag dispatch raises nothing: it returns
    Python's [None]. *)
Theorem create_from_etree_element_unknown_tag :
  forall (e : etree.Element),
    etree.tag e <> "Gaussian" ->
    etree.tag e <> "Constant" ->
    etree.tag e <> "Pareto" ->
    random_type.create_from_etree_element (F:=F) e = Ok None.
Proof.
  intros e Hg Hc Hp.
  apply String.eqb_neq in Hg, Hc, Hp.
  apply dispatch_falls_through; assumption.
Qed.

(** X14. The [None] of the dispatch is only caught one level up: an item
    whose cost record has an unknown tag is rejected by the cost check of
    [__init__]. *)
Lemma item_with_unknown_cost_tag_rejected (n d : option string)
    (bad : etree.Element) (rc : list etree.Element) :
  etree.tag bad <> "Gaussian" ->
  etree.tag bad <> "Constant" ->
  etree.tag bad <> "Pareto" ->
  (exists r, CashFlowItem.last_created (F:=F) rc None = Ok (Some r)) ->
  CashFlowItem.create_from_etree_element (F:=F)
    (etree.Elem "CashFlowItem" None
       [ etree.leaf "name" n; etree.leaf "desc" d;
         etree.Elem "upfrontCost" None [bad];
         etree.Elem "recurringCost" None rc ])
  = Raise (TypeError "cost must be a RandomType, float or int").
Proof.
  intros Hg Hc Hp [r Hr].
  unfold CashFlowItem.create_from_etree_element, CashFlowItem.iter_found,
    etree.find_text, etree.find.
  simpl.
  apply String.eqb_neq in Hg, Hc, Hp.
  rewrite (dispatch_falls_through bad Hg Hc Hp).
  simpl. rewrite Hr. reflexivity.
Qed.

End Dispatch.

(** ** The summary: sampling on demand, and the cache *)

Section Laziness.

Context {F : Type} {num : PyFloat F}.
Context {Rng : Type} {rnd : PyRandom F Rng} {np : Numpy F}.

Lemma sample_cash_flow_run (s : Summary.t) (g : Rng) :
  Summary.sample_cash_flow (s, g) =
  match CashFlowSheet.get_cash_flow (Summary.cash_flow_sheet s) (Summary.years s) g with
  | (Ok flows, g') => (Ok tt, (with_flows s flows, g'))
  | (Raise e, g') => (Raise e, (s, g'))
  end.
Proof.
  unfold Summary.sample_cash_flow, Summary.with_rng, Summary.self,
    Summary.set_self, bind. simpl.
  destruct (CashFlowSheet.get_cash_flow (Summary.cash_flow_sheet s)
              (Summary.years s) g) as [[flows | e] g']; reflexivity.
Qed.

Lemma sample_if_needed_sampled (s : Summary.t) (g : Rng) :
  Summary.sampled s = true -> Summary.sample_if_needed (s, g) = (Ok tt, (s, g)).
Proof.
  intros Hs. unfold Summary.sample_if_needed, Summary.self, bind. simpl.
  rewrite Hs. reflexivity.
Qed.

Lemma sample_if_needed_unsampled (s : Summary.t) (g : Rng) :
  Summary.sampled s = false ->
  Summary.sample_if_needed (s, g) = Summary.sample_cash_flow (s, g).
Proof.
  intros Hs. unfold Summary.sample_if_needed, Summary.self, bind. simpl.
  rewrite Hs. reflexivity.
Qed.

Lemma sampled_after_sampling (s : Summary.t) (g : Rng) (st : Summary.state) :
  Summary.sample_cash_flow (s, g) = (Ok tt, st) -> Summary.sampled (fst st) = true.
Proof.
  rewrite sample_cash_flow_run.
  destruct (CashFlowSheet.get_cash_flow _ _ g) as [[flows | e] g'];
    intros Heq; inversion Heq; reflexivity.
Qed.

Lemma total_cash_flow_sampled (s : Summary.t) (g : Rng) :
  Summary.sampled s = true ->
  Summary.total_cash_flow (s, g) = (read_attr (Summary._total_cash_flow s), (s, g)).
Proof.
  intros Hs. unfold Summary.total_cash_flow, bind.
  rewrite (sample_if_needed_sampled s g Hs). reflexivity.
Qed.

Lemma net_cash_flow_sampled (s : Summary.t) (g : Rng) :
  Summary.sampled s = true ->
  Summary.net_cash_flow (s, g) = (read_attr (Summary._net_cash_flow s), (s, g)).
Proof.
  intros Hs. unfold Summary.net_cash_flow, bind.
  rewrite (sample_if_needed_sampled s g Hs). reflexivity.
Qed.

Lemma net_cash_flow_cached (s : Summary.t) (g : Rng) (ncf : list F) :
  Summary.sampled s = true ->
  Summary._net_cash_flow s = Some ncf ->
  Summary.net_cash_flow (s, g) = (Ok ncf, (s, g)).
Proof.
  intros Hs Hc. rewrite (net_cash_flow_sampled s g Hs), Hc. reflexivity.
Qed.

Lemma get_IRR_sampled (s : Summary.t) (g : Rng) :
  Summary.sampled s = true ->
  Summary.get_IRR (s, g) =
  (ncf <-r read_attr (Summary._net_cash_flow s) ;; Ok (np_irr ncf), (s, g)).
Proof.
  intros Hs. unfold Summary.get_IRR, bind.
  rewrite (sample_if_needed_sampled s g Hs), (net_cash_flow_sampled s g Hs).
  destruct (read_attr (Summary._net_cash_flow s)); reflexivity.
Qed.

Lemma get_NPV_sampled (s : Summary.t) (g : Rng) :
  Summary.sampled s = true ->
  Summary.get_NPV (s, g) =
  (ncf <-r read_attr (Summary._net_cash_flow s) ;;
   Ok (np_npv (Summary.interest_rate s) ncf), (s, g)).
Proof.
  intros Hs. unfold Summary.get_NPV, bind.
  rewrite (sample_if_needed_sampled s g Hs). unfold Summary.self. simpl.
  rewrite (net_cash_flow_sampled s g Hs).
  destruct (read_attr (Summary._net_cash_flow s)); reflexivity.
Qed.

Lemma get_payback_period_sampled (s : Summary.t) (g : Rng) :
  Summary.sampled s = true ->
  Summary.get_payback_period (s, g) =
  (ncf <-r read_attr (Summary._net_cash_flow s) ;;
   payback_of (Summary.years s) ncf, (s, g)).
Proof.
  intros Hs. unfold Summary.get_payback_period, bind.
  rewrite (sample_if_needed_sampled s g Hs), (net_cash_flow_sampled s g Hs).
  destruct (read_attr (Summary._net_cash_flow s)) as [ncf | e] eqn:Hattr;
    [ | reflexivity].
  unfold Summary.self, lift, payback_of, rbind. simpl.
  destruct (Summary.first_positive (np_cumsum ncf)
              (py_range 0 (Summary.years s)) (Summary.years s))
    as [fpy | e]; [ | reflexivity].
  destruct (py_getitem (np_cumsum ncf) (fpy - 1)) as [c | e]; [ | reflexivity].
  rewrite (net_cash_flow_sampled s g Hs), Hattr.
  destruct (py_getitem ncf fpy) as [n | e]; reflexivity.
Qed.

(** A metric that is a function of the cache once the summary is sampled
    samples on demand. *)
Lemma lazy_of_sampled {A} (m : M Summary.state A)
    (f : Summary.t -> result A) :
  (forall s g, Summary.sampled s = false ->
     m (s, g) = after_sampling m (s, g)) ->
  (forall s g, Summary.sampled s = true -> m (s, g) = (f s, (s, g))) ->
  lazy m.
Proof.
  intros Hfirst Hread. split; [exact Hfirst | ].
  intros s g Hs. split.
  - rewrite (Hread s g Hs). reflexivity.
  - intros g2. rewrite (Hread s g Hs), (Hread s g2 Hs). reflexivity.
Qed.

Lemma guarded_first_read {A} (k : M Summary.state A) (s : Summary.t) (g : Rng) :
  Summary.sampled s = false ->
  (Summary.sample_if_needed ;;; k) (s, g)
  = after_sampling (Summary.sample_if_needed ;;; k) (s, g).
Proof.
  intros Hs. unfold after_sampling, bind.
  rewrite (sample_if_needed_unsampled s g Hs).
  destruct (Summary.sample_cash_flow (s, g)) as [[[] | e] [s' g']] eqn:Hrun.
  - rewrite (sample_if_needed_sampled s' g' (sampled_after_sampling s g Hrun)).
    reflexivity.
  - reflexivity.
Qed.

(** C3. Each of the five readers samples on demand: on an unsampled
    summary it performs one [sample_cash_flow] and then reads; on a
    sampled summary it leaves the summary and the generator untouched and
    answers from the cache alone.  A successful [sample_cash_flow] sets
    [sampled] and fills both cached fields with what the sheet sampled,
    whatever the flag was before (an explicit call resamples); a failed
    one leaves the summary as it was. *)
Theorem readers_sample_on_demand :
  lazy Summary.total_cash_flow
  /\ lazy Summary.net_cash_flow
  /\ lazy Summary.get_IRR
  /\ lazy Summary.get_NPV
  /\ lazy Summary.get_payback_period
  /\ (forall (s : Summary.t) (g : Rng),
        Summary.sampled s = true ->
        Summary.total_cash_flow (s, g)
          = (read_attr (Summary._total_cash_flow s), (s, g))
        /\ Summary.net_cash_flow (s, g)
          = (read_attr (Summary._net_cash_flow s), (s, g)))
  /\ (forall (s : Summary.t) (g : Rng),
        match Summary.sample_cash_flow (s, g) with
        | (Ok _, (s', g')) =>
            Summary.sampled s' = true
            /\ exists total net,
                 CashFlowSheet.get_cash_flow (Summary.cash_flow_sheet s)
                   (Summary.years s) g = (Ok (total, net), g')
                 /\ Summary._total_cash_flow s' = Some total
                 /\ Summary._net_cash_flow s' = Some net
        | (Raise _, (s', _)) => s' = s
        end).
Proof.
  split; [ | split; [ | split; [ | split; [ | split; [ | split]]]]].
  - eapply lazy_of_sampled.
    + intros s g Hs. apply guarded_first_read. exact Hs.
    + intros s g Hs. apply total_cash_flow_sampled. exact Hs.
  - eapply lazy_of_sampled.
    + intros s g Hs. apply guarded_first_read. exact Hs.
    + intros s g Hs. apply net_cash_flow_sampled. exact Hs.
  - eapply lazy_of_sampled.
    + intros s g Hs. apply guarded_first_read. exact Hs.
    + intros s g Hs. apply get_IRR_sampled. exact Hs.
  - eapply lazy_of_sampled.
    + intros s g Hs. apply guarded_first_read. exact Hs.
    + intros s g Hs. apply get_NPV_sampled. exact Hs.
  - eapply lazy_of_sampled.
    + intros s g Hs. apply guarded_first_read. exact Hs.
    + intros s g Hs. apply get_payback_period_sampled. exact Hs.
  - intros s g Hs. split.
    + apply total_cash_flow_sampled. exact Hs.
    + apply net_cash_flow_sampled. exact Hs.
  - intros s g. rewrite sample_cash_flow_run.
    destruct (CashFlowSheet.get_cash_flow (Summary.cash_flow_sheet s)
                (Summary.years s) g) as [[[total net] | e] g'].
    + split; [reflexivity | ]. exists total, net. repeat split.
    + reflexivity.
Qed.

End Laziness.

(** ** Python subscripts *)

Section Subscripts.

Context {A : Type}.

Lemma py_getitem_nonneg (l : list A) (j : nat) (a : A) :
  nth_error l j = Some a -> py_getitem l (Z.of_nat j) = Ok a.
Proof.
  intros Hnth. unfold py_getitem.
  assert (Hlt : (j < List.length l)%nat).
  { apply nth_error_Some. rewrite Hnth. discriminate. }
  destruct (Z.ltb_spec (Z.of_nat j) 0) as [Hneg | _]; [lia | ].
  destruct (Z.leb_spec 0 (Z.of_nat j)) as [_ | Hneg]; [ | lia].
  destruct (Z.ltb_spec (Z.of_nat j) (Z.of_nat (List.length l))) as [_ | Hge];
    [ | lia].
  simpl. rewrite Nat2Z.id, Hnth. reflexivity.
Qed.

(** [l[-1]] is the last element. *)
Lemma py_getitem_minus_one (l : list A) (n : nat) (a : A) :
  List.length l = S n -> nth_error l n = Some a -> py_getitem l (0 - 1) = Ok a.
Proof.
  intros Hlen Hnth. unfold py_getitem. rewrite Hlen.
  change (0 - 1 <? 0) with true. cbv iota.
  replace (0 - 1 + Z.of_nat (S n)) with (Z.of_nat n) by lia.
  destruct (Z.leb_spec 0 (Z.of_nat n)) as [_ | Hneg]; [ | lia].
  destruct (Z.ltb_spec (Z.of_nat n) (Z.of_nat (S n))) as [_ | Hge]; [ | lia].
  simpl. rewrite Nat2Z.id, Hnth. reflexivity.
Qed.

Lemma nth_error_in_range (l : list A) (j : nat) :
  (j < List.length l)%nat -> exists a, nth_error l j = Some a.
Proof.
  intros Hlt. destruct (nth_error l j) as [a | ] eqn:E.
  - exists a. reflexivity.
  - apply nth_error_None in E. lia.
Qed.

End Subscripts.

Lemma py_range_from_zero (n : Z) :
  py_range 0 n = map Z.of_nat (seq 0 (Z.to_nat n)).
Proof.
  unfold py_range. rewrite Z.sub_0_r. apply map_ext. intros k. lia.
Qed.

(** ** The payback period *)

Section Payback.

Context {F : Type} {num : PyFloat F}.
Context {Rng : Type} {rnd : PyRandom F Rng} {np : Numpy F}.

Lemma length_cumsum_from (acc : F) (xs : list F) :
  List.length (cumsum_from acc xs) = List.length xs.
Proof.
  revert acc. induction xs as [| x xs IH]; intros acc; simpl.
  - reflexivity.
  - rewrite IH. reflexivity.
Qed.

Lemma length_np_cumsum (xs : list F) :
  List.length (np_cumsum xs) = List.length xs.
Proof.
  destruct xs as [| x xs]; simpl.
  - reflexivity.
  - rewrite length_cumsum_from. reflexivity.
Qed.

Lemma positive_at_dec (cumsum : list F) (j : nat) :
  {positive_at cumsum j} + {~ positive_at cumsum j}.
Proof.
  unfold positive_at.
  destruct (nth_error cumsum j) as [c | ] eqn:Hnth.
  - destruct (fltb (of_int 0) c) eqn:Hpos.
    + left. exists c. split; [reflexivity | exact Hpos].
    + right. intros [c' [Heq Hc']]. inversion Heq; subst c'. congruence.
  - right. intros [c' [Heq _]]. discriminate.
Qed.

Lemma first_positive_year_unique (cumsum : list F) (years t t' : nat) :
  first_positive_year cumsum years t ->
  first_positive_year cumsum years t' -> t = t'.
Proof.
  intros [Hle [Hbefore Hat]] [Hle' [Hbefore' Hat']].
  destruct (Nat.lt_trichotomy t t') as [Hlt | [Heq | Hgt]].
  - destruct Hat as [Hpos | Hend]; [ | lia].
    exfalso. exact (Hbefore' t Hlt Hpos).
  - exact Heq.
  - destruct Hat' as [Hpos | Hend]; [ | lia].
    exfalso. exact (Hbefore t' Hgt Hpos).
Qed.

Lemma first_positive_year_exists (cumsum : list F) (years : nat) :
  exists t, first_positive_year cumsum years t.
Proof.
  assert (Hscan : forall k, (k <= years)%nat ->
            (exists t, first_positive_year cumsum years t)
            \/ (forall j, (j < k)%nat -> ~ positive_at cumsum j)).
  { induction k as [| k IH]; intros Hk.
    - right. intros j Hj. lia.
    - destruct (IH ltac:(lia)) as [Hfound | Hnone]; [left; exact Hfound | ].
      destruct (positive_at_dec cumsum k) as [Hpos | Hneg].
      + left. exists k. split; [lia | ]. split; [exact Hnone | left; exact Hpos].
      + right. intros j Hj. destruct (Nat.eq_dec j k) as [-> | Hne].
        * exact Hneg.
        * apply Hnone. lia. }
  destruct (Hscan years (Nat.le_refl _)) as [Hfound | Hnone].
  - exact Hfound.
  - exists years. split; [lia | ]. split; [exact Hnone | right; reflexivity].
Qed.

(** The loop of [get_payback_period], started at index [a]. *)
Lemma first_positive_scan (cumsum : list F) (default : Z) (len a t : nat) :
  (a <= t)%nat -> (t <= a + len)%nat ->
  (a + len <= List.length cumsum)%nat ->
  (forall j, (a <= j)%nat -> (j < t)%nat -> ~ positive_at cumsum j) ->
  (positive_at cumsum t /\ (t < a + len)%nat
   \/ t = (a + len)%nat /\ default = Z.of_nat t) ->
  Summary.first_positive cumsum (map Z.of_nat (seq a len)) default
  = Ok (Z.of_nat t).
Proof.
  revert a. induction len as [| len IH]; intros a Hat Hta Hlen Hbefore Hend.
  - simpl. destruct Hend as [[_ Hlt] | [_ Hdef]]; [lia | ].
    rewrite Hdef. reflexivity.
  - simpl.
    assert (Hin : (a < List.length cumsum)%nat) by lia.
    destruct (nth_error_in_range cumsum Hin) as [c Hc].
    rewrite (py_getitem_nonneg _ _ Hc). simpl.
    destruct (Nat.eq_dec a t) as [Heq | Hne].
    + subst a. destruct Hend as [[[c' [Hc' Hpos]] _] | [Habs _]]; [ | lia].
      rewrite Hc in Hc'. inversion Hc'; subst c'. rewrite Hpos. reflexivity.
    + destruct (fltb (of_int 0) c) eqn:Hpos.
      * exfalso. apply (Hbefore a (Nat.le_refl _) ltac:(lia)).
        exists c. split; [exact Hc | exact Hpos].
      * apply IH; try lia.
        -- intros j Hj1 Hj2. apply Hbefore; lia.
        -- destruct Hend as [[Hp Hlt] | [Heq Hdef]].
           ++ left. split; [exact Hp | lia].
           ++ right. split; [lia | exact Hdef].
Qed.

Lemma first_positive_found (ncf : list F) (years t : nat) :
  List.length ncf = S years ->
  first_positive_year (np_cumsum ncf) years t ->
  Summary.first_positive (np_cumsum ncf) (py_range 0 (Z.of_nat years))
    (Z.of_nat years) = Ok (Z.of_nat t).
Proof.
  intros Hlen [Hle [Hbefore Hat]].
  rewrite py_range_from_zero, Nat2Z.id.
  apply first_positive_scan.
  - lia.
  - simpl. exact Hle.
  - rewrite length_np_cumsum, Hlen. simpl. lia.
  - intros j _ Hj. apply Hbefore. exact Hj.
  - simpl. destruct (Nat.eq_dec t years) as [Heq | Hne].
    + right. split; [exact Heq | subst t; reflexivity].
    + destruct Hat as [Hpos | Heq]; [ | contradiction].
      left. split; [exact Hpos | lia].
Qed.

Lemma payback_of_first_positive (ncf : list F) (years t : nat) :
  List.length ncf = S years ->
  first_positive_year (np_cumsum ncf) years t ->
  exists c n,
    py_getitem (np_cumsum ncf) (Z.of_nat t - 1) = Ok c
    /\ nth_error (np_cumsum ncf) (match t with O => years | S k => k end) = Some c
    /\ nth_error ncf t = Some n
    /\ payback_of (Z.of_nat years) ncf
       = Ok (fadd (of_int (Z.of_nat t - 1)) (fabs (fdiv c n))).
Proof.
  intros Hlen Hspec.
  assert (Hle : (t <= years)%nat) by (destruct Hspec as [Hle _]; exact Hle).
  assert (Hclen : List.length (np_cumsum ncf) = S years).
  { rewrite length_np_cumsum. exact Hlen. }
  assert (Hidx : (match t with O => years | S k => k end
                  < List.length (np_cumsum ncf))%nat).
  { rewrite Hclen. destruct t; lia. }
  destruct (nth_error_in_range (np_cumsum ncf) Hidx) as [c Hc].
  assert (Ht : (t < List.length ncf)%nat) by lia.
  destruct (nth_error_in_range ncf Ht) as [n Hn].
  assert (Hget : py_getitem (np_cumsum ncf) (Z.of_nat t - 1) = Ok c).
  { destruct t as [| k].
    - apply (py_getitem_minus_one _ Hclen Hc).
    - replace (Z.of_nat (S k) - 1) with (Z.of_nat k) by lia.
      apply py_getitem_nonneg. exact Hc. }
  exists c, n. split; [exact Hget | ]. split; [exact Hc | ].
  split; [exact Hn | ].
  unfold payback_of. rewrite (first_positive_found ncf Hlen Hspec). simpl.
  rewrite Hget. simpl. rewrite (py_getitem_nonneg _ _ Hn). reflexivity.
Qed.

(** C2. On a sampled summary whose net cash flow has [years + 1] entries
    the payback period is found as follows.  Let [t] be the first year
    whose cumulative flow is positive, and [years] when there is none
    (such a [t] always exists, and only one).  With [c = t - 1] the
    method returns [c + |cumsum[c] / net_cash_flow[t]|], where
    [cumsum[c]] is Python's subscript; it raises nothing and touches
    neither the summary nor the generator. *)
Theorem payback_period_interpolates :
  forall (s : Summary.t) (g : Rng) (ncf : list F),
    Summary.sampled s = true ->
    Summary._net_cash_flow s = Some ncf ->
    0 <= Summary.years s ->
    Z.of_nat (List.length ncf) = Summary.years s + 1 ->
    (exists t,
        first_positive_year (np_cumsum ncf) (Z.to_nat (Summary.years s)) t)
    /\ (forall t,
          first_positive_year (np_cumsum ncf) (Z.to_nat (Summary.years s)) t ->
          exists c n,
            py_getitem (np_cumsum ncf) (Z.of_nat t - 1) = Ok c
            /\ ((1 <= t)%nat -> nth_error (np_cumsum ncf) (t - 1) = Some c)
            /\ nth_error ncf t = Some n
            /\ Summary.get_payback_period (s, g)
               = (Ok (fadd (of_int (Z.of_nat t - 1)) (fabs (fdiv c n))), (s, g))).
Proof.
  intros s g ncf Hs Hcache Hyears Hlen.
  split; [apply first_positive_year_exists | ].
  intros t Hspec.
  assert (Hlen' : List.length ncf = S (Z.to_nat (Summary.years s))) by lia.
  destruct (payback_of_first_positive ncf Hlen' Hspec) as [c [n [Hget [Hc [Hn Hpay]]]]].
  exists c, n. split; [exact Hget | ]. split.
  - intros Hpos. destruct t as [| k]; [lia | ].
    replace (S k - 1)%nat with k by lia. exact Hc.
  - split; [exact Hn | ].
    rewrite (get_payback_period_sampled s g Hs), Hcache. simpl.
    rewrite <- Hpay. f_equal. f_equal. lia.
Qed.

(** C10. When the cumulative flow is already positive in year 0 the
    search stops at [first_positive_year = 0], so [complete_years = -1]
    and the subscript [cumsum[-1]] reads the last cumulative entry, the
    one of index [years]: the method returns
    [-1 + |cumsum[years] / net_cash_flow[0]|] and raises no IndexError. *)
Theorem payback_period_positive_from_year_zero :
  forall (s : Summary.t) (g : Rng) (ncf : list F),
    Summary.sampled s = true ->
    Summary._net_cash_flow s = Some ncf ->
    0 <= Summary.years s ->
    Z.of_nat (List.length ncf) = Summary.years s + 1 ->
    positive_at (np_cumsum ncf) 0 ->
    exists last first,
      nth_error (np_cumsum ncf) (Z.to_nat (Summary.years s)) = Some last
      /\ nth_error ncf 0 = Some first
      /\ Summary.first_positive (np_cumsum ncf)
           (py_range 0 (Summary.years s)) (Summary.years s) = Ok 0
      /\ py_getitem (np_cumsum ncf) (0 - 1) = Ok last
      /\ Summary.get_payback_period (s, g)
         = (Ok (fadd (of_int (0 - 1)) (fabs (fdiv last first))), (s, g)).
Proof.
  intros s g ncf Hs Hcache Hnonneg Hlen Hpos.
  assert (Hlen' : List.length ncf = S (Z.to_nat (Summary.years s))) by lia.
  assert (Hyears : Summary.years s = Z.of_nat (Z.to_nat (Summary.years s))) by lia.
  assert (Hspec : first_positive_year (np_cumsum ncf)
                    (Z.to_nat (Summary.years s)) 0).
  { split; [lia | ]. split; [intros j Hj; lia | left; exact Hpos]. }
  destruct (payback_of_first_positive ncf Hlen' Hspec)
    as [last [first [Hget [Hlast [Hfirst Hpay]]]]].
  exists last, first.
  split; [exact Hlast | ]. split; [exact Hfirst | ]. split.
  - rewrite Hyears at 1 2. apply (first_positive_found ncf Hlen' Hspec).
  - split; [exact Hget | ].
    rewrite (get_payback_period_sampled s g Hs), Hcache. simpl.
    rewrite Hyears at 1. rewrite Hpay. reflexivity.
Qed.

End Payback.

(** The payback example: with [net_cash_flow = [-100, 30, 30, 30, 30]] and
    [years = 4] the first positive year is 4 and the period is
    3 + |(-10)/30|, the double nearest to 3.333... *)
Lemma payback_period_example :
  Summary._net_cash_flow Examples.sampled_a
    = Some [(-100)%float; 30%float; 30%float; 30%float; 30%float]
  /\ first_positive_year
       (np_cumsum [(-100)%float; 30%float; 30%float; 30%float; 30%float]) 4 4
  /\ Summary.get_payback_period (Examples.sampled_a, 0%nat)
     = (Ok 3.3333333333333335%float, (Examples.sampled_a, 0%nat)).
Proof.
  assert (Hspec : first_positive_year
            (np_cumsum [(-100)%float; 30%float; 30%float; 30%float; 30%float])
            4 4).
  { split; [lia | ]. split.
    - intros j Hj [c [Hnth Hpos]].
      destruct j as [| [| [| [| j]]]]; try lia;
        vm_compute in Hnth; inversion Hnth; subst c;
        vm_compute in Hpos; discriminate Hpos.
    - left. exists 20%float. split; vm_compute; reflexivity. }
  split; [reflexivity | ]. split; [exact Hspec | ].
  destruct (proj2 (payback_period_interpolates
                     Examples.sampled_a 0%nat
                     eq_refl eq_refl ltac:(vm_compute; discriminate) eq_refl)
              4%nat Hspec)
    as [c [n [Hget [_ [Hn Hrun]]]]].
  rewrite Hrun.
  vm_compute in Hget. inversion Hget; subst c.
  vm_compute in Hn. inversion Hn; subst n.
  vm_compute. reflexivity.
Defined.

(** With [net_cash_flow = [50, -20, 10]] the cumulative flow is
    [50, 30, 40]: the period is -1 + |40/50|, about -0.2 in doubles. *)
Lemma payback_period_year_zero_example :
  Summary._net_cash_flow Examples.sampled_b
    = Some [50%float; (-20)%float; 10%float]
  /\ Summary.get_payback_period (Examples.sampled_b, 0%nat)
     = (Ok (-0.19999999999999996)%float, (Examples.sampled_b, 0%nat)).
Proof.
  split; [reflexivity | ].
  assert (Hpos : positive_at (np_cumsum [50%float; (-20)%float; 10%float]) 0).
  { exists 50%float. split; vm_compute; reflexivity. }
  destruct (payback_period_positive_from_year_zero
              Examples.sampled_b 0%nat eq_refl eq_refl
              ltac:(vm_compute; discriminate) eq_refl Hpos)
    as [last [first [Hlast [Hfirst [_ [_ Hrun]]]]]].
  rewrite Hrun.
  vm_compute in Hlast. inversion Hlast; subst last.
  vm_compute in Hfirst. inversion Hfirst; subst first.
  vm_compute. reflexivity.
Defined.

(** ** The net present value *)

Section DiscountedTerms.

Context {F : Type} {num : PyFloat F} {np : Numpy F}.



End DiscountedTerms.

Section NetPresentValue.

Context {Rng : Type} {rnd : PyRandom Q Rng} {np : Numpy Q}.







End NetPresentValue.



(** ** What a sampling stores *)

Section SampledLength.

Context {F : Type} {num : PyFloat F}.
Context {Rng : Type} {rnd : PyRandom F Rng}.

Lemma mapM_length {A B : Type} (f : A -> M Rng B) (xs : list A) :
  forall (g g' : Rng) (ys : list B),
    mapM f xs g = (Ok ys, g') -> List.length ys = List.length xs.
Proof.
  induction xs as [| x xs IH]; intros g g' ys Hrun; simpl in Hrun.
  - inversion Hrun. reflexivity.
  - unfold bind in Hrun.
    destruct (f x g) as [[y | e] g1]; [ | discriminate].
    destruct (mapM f xs g1) as [[ys' | e] g2] eqn:Hrest; [ | discriminate].
    inversion Hrun; subst. simpl. f_equal. exact (IH _ _ _ Hrest).
Qed.

(** One sampling of the sheet gives one entry per year from 0 to [years]:
    the premise on the cache in the metric theorems is what sampling
    establishes. *)
Lemma get_cash_flow_length (sheet : CashFlowSheet.t) (years : Z) (g g' : Rng)
    (total : list (list (list F))) (net : list F) :
  0 <= years ->
  CashFlowSheet.get_cash_flow sheet years g = (Ok (total, net), g') ->
  Z.of_nat (List.length net) = years + 1
  /\ List.length total = List.length net.
Proof.
  intros Hyears Hrun. unfold CashFlowSheet.get_cash_flow, bind in Hrun.
  destruct (CashFlowSheet.get_upfront_cost sheet g) as [[up | e] g1];
    [ | discriminate].
  destruct (mapM (CashFlowSheet.get_recurring_cost sheet)
              (py_range 1 (years + 1)) g1) as [[recurring | e] g2] eqn:Hrec;
    [ | discriminate].
  inversion Hrun; subst. apply mapM_length in Hrec.
  unfold py_range in Hrec. rewrite length_map, length_seq in Hrec.
  simpl. rewrite length_map. split; [lia | reflexivity].
Qed.

End SampledLength.

(** A first read of [summary_g] draws four times (the Pareto cost of
    years 1 to 4; the Gaussian cost is inactive in year 0) and fills the
    cache; a second read finds the summary sampled and draws nothing; an
    explicit [sample_cash_flow] draws four more times. *)
Lemma readers_sample_on_demand_example :
  Summary.net_cash_flow (Examples.summary_g, 0%nat)
    = (Ok [(-200)%float; 61%float; 62%float; 63%float; 64%float],
       (Examples.sampled_g, 4%nat))
  /\ Summary.net_cash_flow (Examples.sampled_g, 4%nat)
    = (Ok [(-200)%float; 61%float; 62%float; 63%float; 64%float],
       (Examples.sampled_g, 4%nat))
  /\ Summary.get_payback_period (Examples.summary_a, 0%nat)
    = (Ok 3.3333333333333335%float, (Examples.sampled_a, 0%nat))
  /\ snd (snd (Summary.sample_cash_flow (Examples.sampled_g, 4%nat))) = 8%nat.
Proof.
  destruct (readers_sample_on_demand (F:=float) (Rng:=nat))
    as [_ [[Hfirst Hcached] [_ [_ [[Hpay _] [Hread _]]]]]].
  split; [ | split; [ | split]].
  - rewrite (Hfirst Examples.summary_g 0%nat eq_refl).
    vm_compute. reflexivity.
  - rewrite (proj2 (Hread Examples.sampled_g 4%nat eq_refl)).
    reflexivity.
  - rewrite (Hpay Examples.summary_a 0%nat eq_refl).
    vm_compute. reflexivity.
  - vm_compute. reflexivity.
Defined.

(** A record tagged "Uniform" is answered with [None], not with an
    exception. *)
Lemma create_from_etree_element_unknown_tag_witness :
  random_type.create_from_etree_element (F:=float) Examples.uniform_record
  = Ok None.
Proof.
  apply (create_from_etree_element_unknown_tag (F:=float) Examples.uniform_record);
    vm_compute; discriminate.
Defined.

(** ** Writing a record and reading it back *)

Section Roundtrip.

Context {F : Type} {num : PyFloat F} {txt : PyText F}.

(** Whatever the document, a summary that was read has the default
    number of iterations and is unsampled: [Iterations] is never read. *)
Lemma Summary_read_defaults (e : etree.Element) (s' : Summary.t (F:=F)) :
  Summary.create_from_etree_element e = Ok s' ->
  Summary.iterations s' = Summary.default_iterations
  /\ Summary.sampled s' = false
  /\ Summary._total_cash_flow s' = None
  /\ Summary._net_cash_flow s' = None.
Proof.
  unfold Summary.create_from_etree_element, rbind.
  destruct (match etree.find e "CashFlowSheet" with
            | Some c => CashFlowSheet.create_from_etree_element c
            | None => Raise AttributeError
            end) as [sheet | err]; [ | discriminate].
  destruct (etree.find_text e "InterestRate") as [x | err]; [ | discriminate].
  destruct (float_of x) as [rate | err]; [ | discriminate].
  destruct (etree.find_text e "Years") as [y | err]; [ | discriminate].
  destruct (float_of y) as [yf | err]; [ | discriminate].
  destruct (py_floor yf) as [years | err]; [ | discriminate].
  intros Heq. inversion Heq; subst s'. repeat split.
Qed.

(** C4, where the code departs from it. [generate_etree_element] writes
    the [Iterations] of a summary and [create_from_etree_element] never
    reads them: whatever a summary with another number of iterations than
    the default 10000 is read back as, it is not that summary. *)
Theorem Summary_roundtrip_loses_iterations :
  forall (s : Summary.t (F:=F)),
    Summary.iterations s <> Summary.default_iterations ->
    forall s',
      (e <-r Summary.generate_etree_element s ;;
       Summary.create_from_etree_element e) = Ok s' ->
      Summary.iterations s' = Summary.default_iterations /\ s' <> s.
Proof.
  intros s Hiter s' Hread.
  destruct (Summary.generate_etree_element s) as [e | err];
    [ | discriminate Hread].
  simpl in Hread.
  destruct (Summary_read_defaults _ Hread) as [Hdefault _].
  split; [exact Hdefault | ].
  intros Heq. subst s'. exact (Hiter Hdefault).
Qed.

(** Reading the element a distribution has just generated: every field
    is found, and its text goes through [float]. *)
Lemma Gaussian_read_generated (d : Gaussian.t (F:=F)) :
  Gaussian.create_from_etree_element (Gaussian.generate_etree_element d)
  = (m <-r py_float (py_str (Gaussian.mu d)) ;;
     s <-r py_float (py_str (Gaussian.sigma d)) ;;
     sy <-r py_float (_value_or_empty (Gaussian.start_year d) (of_int 0)) ;;
     ey <-r py_float (_value_or_empty (Gaussian.end_year d) finf) ;;
     Ok (Gaussian.make m s sy ey)).
Proof. reflexivity. Qed.

Lemma Constant_read_generated (d : Constant.t (F:=F)) :
  Constant.create_from_etree_element (Constant.generate_etree_element d)
  = (v <-r py_float (py_str (Constant.value d)) ;;
     sy <-r py_float (_value_or_empty (Constant.start_year d) (of_int 0)) ;;
     ey <-r py_float (_value_or_empty (Constant.end_year d) finf) ;;
     Ok (Constant.make v sy ey)).
Proof. reflexivity. Qed.

Lemma Pareto_read_generated (d : Pareto.t (F:=F)) :
  Pareto.create_from_etree_element (Pareto.generate_etree_element d)
  = (a <-r py_float (py_str (Pareto.alpha d)) ;;
     sy <-r py_float (_value_or_empty (Pareto.start_year d) (of_int 0)) ;;
     ey <-r py_float (_value_or_empty (Pareto.end_year d) finf) ;;
     Ok (Pareto.make a sy ey)).
Proof. reflexivity. Qed.

(** The two bounds, read back from what [_value_or_empty] wrote, when one
    of them is at its default. *)
Lemma bounds_at_default_raise {A : Type} (sy ey : F) (k : F -> F -> result A) :
  py_float "" = Raise ValueError ->
  feqb sy (of_int 0) = true \/ feqb ey finf = true ->
  exists err,
    (s <-r py_float (_value_or_empty sy (of_int 0)) ;;
     e <-r py_float (_value_or_empty ey finf) ;;
     k s e) = Raise err.
Proof.
  intros Hempty [Hd | Hd]; unfold _value_or_empty.
  - rewrite Hd, Hempty. exists ValueError. reflexivity.
  - destruct (py_float (if feqb sy (of_int 0) then "" else py_str sy))
      as [s | err]; simpl.
    + rewrite Hd, Hempty. exists ValueError. reflexivity.
    + exists err. reflexivity.
Qed.

(** X15. A bound at its default is written as an element with the empty
    text, and the reader tests for [None]: it hands the empty text to
    [float], which raises.  Read back from the element that was just
    generated, a distribution with a default bound is an error. *)
Lemma default_bound_not_read_back (d : RandomType (F:=F)) :
  py_float "" = Raise ValueError ->
  feqb (start_year d) (of_int 0) = true
  \/ feqb (end_year d) finf = true ->
  exists err,
    random_type.create_from_etree_element (random_type.generate_etree_element d)
    = Raise err.
Proof.
  intros Hempty Hdefault.
  destruct d as [d | d | d]; simpl in Hdefault;
    unfold random_type.create_from_etree_element; simpl.
  - rewrite Gaussian_read_generated.
    destruct (py_float (py_str (Gaussian.mu d))) as [m | err]; simpl;
      [ | exists err; reflexivity].
    destruct (py_float (py_str (Gaussian.sigma d))) as [s | err]; simpl;
      [ | exists err; reflexivity].
    destruct (bounds_at_default_raise _ _
                (fun sy ey => Ok (Gaussian.make m s sy ey))
                Hempty Hdefault) as [err Herr].
    rewrite Herr. exists err. reflexivity.
  - rewrite Constant_read_generated.
    destruct (py_float (py_str (Constant.value d))) as [v | err]; simpl;
      [ | exists err; reflexivity].
    destruct (bounds_at_default_raise _ _
                (fun sy ey => Ok (Constant.make v sy ey))
                Hempty Hdefault) as [err Herr].
    rewrite Herr. exists err. reflexivity.
  - rewrite Pareto_read_generated.
    destruct (py_float (py_str (Pareto.alpha d))) as [a | err]; simpl;
      [ | exists err; reflexivity].
    destruct (bounds_at_default_raise _ _
                (fun sy ey => Ok (Pareto.make a sy ey))
                Hempty Hdefault) as [err Herr].
    rewrite Herr. exists err. reflexivity.
Qed.

(** A bound element without text is read as the default of that bound. *)
Lemma absent_bounds_read_as_defaults (v : string) :
  Constant.create_from_etree_element (F:=F)
    (etree.Elem "Constant" None
       [ etree.leaf "value" (Some v);
         etree.leaf "startYear" None; etree.leaf "endYear" None ])
  = (x <-r py_float v ;; Ok (Constant.make x (of_int 0) finf)).
Proof.
  unfold Constant.create_from_etree_element, etree.find_text, etree.find.
  simpl. destruct (py_float v); reflexivity.
Qed.

(** With both bounds away from their defaults, and [float(str(x))] giving
    back [x], a distribution is read back as it was written. *)
Lemma distribution_roundtrip_explicit_bounds (d : RandomType (F:=F)) :
  (forall x, py_float (py_str x) = Ok x) ->
  feqb (start_year d) (of_int 0) = false ->
  feqb (end_year d) finf = false ->
  random_type.create_from_etree_element (random_type.generate_etree_element d)
  = Ok (Some d).
Proof.
  intros Hrt Hs He.
  destruct d as [d | d | d]; simpl in Hs, He;
    unfold random_type.create_from_etree_element; simpl.
  - rewrite Gaussian_read_generated. unfold _value_or_empty.
    rewrite Hs, He, !Hrt. destruct d; reflexivity.
  - rewrite Constant_read_generated. unfold _value_or_empty.
    rewrite Hs, He, !Hrt. destruct d; reflexivity.
  - rewrite Pareto_read_generated. unfold _value_or_empty.
    rewrite Hs, He, !Hrt. destruct d; reflexivity.
Qed.

End Roundtrip.

(** [Summary(CashFlowSheet(), 0.1, years=10, iterations=500)] comes back
    with 10000 iterations. *)
Lemma Summary_roundtrip_loses_iterations_witness :
  (e <-r Summary.generate_etree_element Examples.summary_500 ;;
   Summary.create_from_etree_element e)
  = Ok (Summary.init (CashFlowSheet.make []) 0.1%float 10 10000)
  /\ Summary.init (CashFlowSheet.make []) 0.1%float 10 10000
     <> Examples.summary_500.
Proof.
  assert (Hread : (e <-r Summary.generate_etree_element Examples.summary_500 ;;
                   Summary.create_from_etree_element e)
                  = Ok (Summary.init (CashFlowSheet.make []) 0.1%float 10 10000)).
  { vm_compute. reflexivity. }
  split; [exact Hread | ].
  refine (proj2 (Summary_roundtrip_loses_iterations
                   Examples.summary_500 _ Hread)).
  vm_compute. discriminate.
Defined.

(** [Constant(5.0)], both bounds at their defaults, is not read back from
    the element it generates; [Gaussian(5, 2, 3, 7)] is. *)
Lemma distribution_roundtrip_examples :
  random_type.create_from_etree_element
    (random_type.generate_etree_element
       (IsConstant (Constant.of_value 5%float)))
  = Raise ValueError
  /\ random_type.create_from_etree_element
       (random_type.generate_etree_element Examples.gaussian_3_7)
     = Ok (Some Examples.gaussian_3_7).
Proof.
  split; vm_compute; reflexivity.
Qed.

(* ================================================================== *)
(** * Further properties *)

(** ** Reading back what was written *)

Section ReadingBack.

Context {F : Type} {num : PyFloat F} {txt : PyText F}.

Lemma writable_reads_back (d : RandomType (F:=F)) :
  writable d ->
  random_type.create_from_etree_element (random_type.generate_etree_element d)
  = Ok (Some d).
Proof.
  intros [Hs [He Hnum]].
  destruct d as [d | d | d]; destruct d; simpl in Hs, He, Hnum;
    unfold random_type.create_from_etree_element; simpl.
  - rewrite Gaussian_read_generated. unfold _value_or_empty. simpl.
    rewrite Hs, He.
    inversion Hnum as [| ? ? H1 Hnum1]; subst.
    inversion Hnum1 as [| ? ? H2 Hnum2]; subst.
    inversion Hnum2 as [| ? ? H3 Hnum3]; subst.
    inversion Hnum3 as [| ? ? H4 _]; subst.
    unfold survives_text in H1, H2, H3, H4.
    rewrite H1; simpl. rewrite H2; simpl. rewrite H3; simpl. rewrite H4.
    reflexivity.
  - rewrite Constant_read_generated. unfold _value_or_empty. simpl.
    rewrite Hs, He.
    inversion Hnum as [| ? ? H1 Hnum1]; subst.
    inversion Hnum1 as [| ? ? H2 Hnum2]; subst.
    inversion Hnum2 as [| ? ? H3 _]; subst.
    unfold survives_text in H1, H2, H3.
    rewrite H1; simpl. rewrite H2; simpl. rewrite H3. reflexivity.
  - rewrite Pareto_read_generated. unfold _value_or_empty. simpl.
    rewrite Hs, He.
    inversion Hnum as [| ? ? H1 Hnum1]; subst.
    inversion Hnum1 as [| ? ? H2 Hnum2]; subst.
    inversion Hnum2 as [| ? ? H3 _]; subst.
    unfold survives_text in H1, H2, H3.
    rewrite H1; simpl. rewrite H2; simpl. rewrite H3. reflexivity.
Qed.

(** X1. A distribution whose two bounds differ from their defaults and
    whose numbers survive [str] and [float] is read back, from the element
    it generates, as the distribution it was: by the reader of its class
    and by the tag dispatch of the module. *)
Theorem distribution_written_then_read :
  forall (d : RandomType (F:=F)),
    writable d ->
    random_type.create_from_etree_element (random_type.generate_etree_element d)
    = Ok (Some d)
    /\ match d with
       | IsGaussian g =>
           Gaussian.create_from_etree_element (Gaussian.generate_etree_element g)
           = Ok g
       | IsConstant c =>
           Constant.create_from_etree_element (Constant.generate_etree_element c)
           = Ok c
       | IsPareto p =>
           Pareto.create_from_etree_element (Pareto.generate_etree_element p)
           = Ok p
       end.
Proof.
  intros d Hw. pose proof (writable_reads_back Hw) as Hread.
  split; [exact Hread | ].
  destruct d as [g | c | p];
    unfold random_type.create_from_etree_element in Hread; simpl in Hread.
  - destruct (Gaussian.create_from_etree_element
                (Gaussian.generate_etree_element g)) as [g' | err];
      simpl in Hread; congruence.
  - destruct (Constant.create_from_etree_element
                (Constant.generate_etree_element c)) as [c' | err];
      simpl in Hread; congruence.
  - destruct (Pareto.create_from_etree_element
                (Pareto.generate_etree_element p)) as [p' | err];
      simpl in Hread; congruence.
Qed.

(** The children of a list of elements that carry the tag [T], when
    every one of them does. *)
Lemma filter_tagged (T : string) (l : list etree.Element) :
  Forall (fun e => etree.tag e = T) l ->
  filter (fun c => String.eqb (etree.tag c) T) l = l.
Proof.
  induction 1 as [| e l He _ IH]; simpl.
  - reflexivity.
  - rewrite He, String.eqb_refl, IH. reflexivity.
Qed.

(** A list written element by element and read back element by element. *)
Lemma rmap_written {A : Type} (gen : A -> result etree.Element)
    (create : etree.Element -> result A) (T : string) (l : list A) :
  Forall (fun a => exists e, gen a = Ok e /\ etree.tag e = T /\ create e = Ok a) l ->
  exists es, rmap gen l = Ok es
             /\ Forall (fun e => etree.tag e = T) es
             /\ rmap create es = Ok l.
Proof.
  induction 1 as [| a l [e [Hgen [Htag Hread]]] _ [es [Hes [Htags Hreads]]]].
  - exists []. repeat split. constructor.
  - exists (e :: es). simpl. rewrite Hgen, Hes. simpl.
    rewrite Hread, Hreads. repeat split. constructor; assumption.
Qed.

(** The two assignments to [.text] of an item and of a group. *)
Lemma text_accepted_written (name : option string) (desc : string) :
  text_accepted name desc = true ->
  etree.SubElement_text "name" name = Ok (etree.leaf "name" name)
  /\ etree.SubElement_text "desc" (Some desc)
     = Ok (etree.leaf "desc" (Some desc)).
Proof.
  unfold text_accepted, etree.SubElement_text, etree.set_text.
  intros H. apply andb_prop in H. destruct H as [Hn Hd].
  rewrite Hd. destruct name as [n | ]; [rewrite Hn | ]; split; reflexivity.
Qed.

Lemma text_refused_raises (name : option string) (desc : string) :
  text_accepted name desc = false ->
  (name_element <-r etree.SubElement_text "name" name ;;
   desc_element <-r etree.SubElement_text "desc" (Some desc) ;;
   Ok (name_element, desc_element)) = Raise ValueError.
Proof.
  unfold text_accepted, etree.SubElement_text, etree.set_text.
  destruct name as [n | ]; simpl.
  - destruct (etree._is_valid_xml_utf8 n); simpl; [ | reflexivity].
    intros Hd. rewrite Hd. reflexivity.
  - intros Hd. rewrite Hd. reflexivity.
Qed.

Lemma writable_item_written (i : CashFlowItem.t (F:=F)) :
  item_writable i ->
  exists e, CashFlowItem.generate_etree_element i = Ok e
            /\ etree.tag e = "CashFlowItem"
            /\ CashFlowItem.create_from_etree_element e = Ok i.
Proof.
  intros [Htext [Hu Hr]]. destruct i as [n d u r]. simpl in Htext, Hu, Hr.
  destruct (text_accepted_written n d Htext) as [Hname Hdesc].
  unfold CashFlowItem.generate_etree_element. simpl.
  rewrite Hname, Hdesc. simpl.
  eexists. split; [reflexivity | ]. split; [reflexivity | ].
  unfold CashFlowItem.create_from_etree_element, CashFlowItem.iter_found,
    etree.find_text, etree.find.
  simpl. rewrite (writable_reads_back Hu). simpl.
  rewrite (writable_reads_back Hr). reflexivity.
Qed.

Lemma writable_group_written (g : CashFlowGroup.t (F:=F)) :
  group_writable g ->
  exists e, CashFlowGroup.generate_etree_element g = Ok e
            /\ etree.tag e = "CashFlowGroup"
            /\ CashFlowGroup.create_from_etree_element e = Ok g.
Proof.
  intros [Htext Hitems]. destruct g as [n d items]. simpl in Htext, Hitems.
  destruct (text_accepted_written n d Htext) as [Hname Hdesc].
  destruct (@rmap_written _ CashFlowItem.generate_etree_element
              CashFlowItem.create_from_etree_element "CashFlowItem" _
              (Forall_impl _ writable_item_written Hitems))
    as [es [Hes [Htags Hreads]]].
  unfold CashFlowGroup.generate_etree_element. simpl.
  rewrite Hname, Hdesc. simpl. rewrite Hes. simpl.
  eexists. split; [reflexivity | ]. split; [reflexivity | ].
  unfold CashFlowGroup.create_from_etree_element, etree.find_text, etree.find,
    etree.findall.
  simpl. rewrite (filter_tagged Htags), Hreads. simpl.
  unfold CashFlowGroup.init, CashFlowGroup.set_items, CashFlowGroup.add_items,
    CashFlowGroup._check_items, check_arg, bind, lift, get, put.
  rewrite check_all_Is. reflexivity.
Qed.

Lemma writable_sheet_written (s : CashFlowSheet.t (F:=F)) :
  sheet_writable s ->
  exists e, CashFlowSheet.generate_etree_element s = Ok e
            /\ etree.tag e = "CashFlowSheet"
            /\ CashFlowSheet.create_from_etree_element e = Ok s.
Proof.
  intros Hgroups. destruct s as [groups]. unfold sheet_writable in Hgroups.
  simpl in Hgroups.
  destruct (@rmap_written _ CashFlowGroup.generate_etree_element
              CashFlowGroup.create_from_etree_element "CashFlowGroup" _
              (Forall_impl _ writable_group_written Hgroups))
    as [es [Hes [Htags Hreads]]].
  unfold CashFlowSheet.generate_etree_element. simpl.
  rewrite Hes. simpl.
  eexists. split; [reflexivity | ]. split; [reflexivity | ].
  unfold CashFlowSheet.create_from_etree_element, etree.findall.
  simpl. rewrite (filter_tagged Htags), Hreads. simpl.
  unfold CashFlowSheet.init, CashFlowSheet.set_groups, CashFlowSheet.add_groups,
    CashFlowSheet._check_groups, check_arg, bind, lift, get, put.
  rewrite check_all_Is. reflexivity.
Qed.

(** Writing and reading in one go. *)
Lemma written_then_read {A : Type} (r : result etree.Element)
    (create : etree.Element -> result A) (T : string) (a : A) :
  (exists e, r = Ok e /\ etree.tag e = T /\ create e = Ok a) ->
  (e <-r r ;; create e) = Ok a.
Proof.
  intros [e [Hr [_ Hread]]]. rewrite Hr. exact Hread.
Qed.

(** X2. An item, a group and a sheet whose names and descriptions are
    XML-compatible text and all of whose distributions are writable are
    written without an exception, and read back from the element they
    generate as they were: names, descriptions, costs, and the order of
    items and groups. *)
Theorem hierarchy_written_then_read :
  (forall i : CashFlowItem.t (F:=F),
      item_writable i ->
      (e <-r CashFlowItem.generate_etree_element i ;;
       CashFlowItem.create_from_etree_element e) = Ok i)
  /\ (forall g : CashFlowGroup.t (F:=F),
        group_writable g ->
        (e <-r CashFlowGroup.generate_etree_element g ;;
         CashFlowGroup.create_from_etree_element e) = Ok g)
  /\ (forall s : CashFlowSheet.t (F:=F),
        sheet_writable s ->
        (e <-r CashFlowSheet.generate_etree_element s ;;
         CashFlowSheet.create_from_etree_element e) = Ok s).
Proof.
  split; [ | split].
  - intros i Hi. apply (written_then_read _ (writable_item_written Hi)).
  - intros g Hg. apply (written_then_read _ (writable_group_written Hg)).
  - intros s Hs. apply (written_then_read _ (writable_sheet_written Hs)).
Qed.

(** X3. A summary whose sheet is writable, whose rate survives [str] and
    [float] and whose horizon survives [str], [float] and [math.floor] is
    written without an exception and read back with its sheet, its rate
    and its horizon, as an unsampled summary with the default 10000
    iterations. *)
Theorem summary_written_then_read :
  forall (s : Summary.t (F:=F)),
    summary_writable s ->
    (e <-r Summary.generate_etree_element s ;;
     Summary.create_from_etree_element e)
    = Ok (Summary.make (Summary.cash_flow_sheet s) (Summary.interest_rate s)
            (Summary.years s) Summary.default_iterations false None None).
Proof.
  intros s [Hsheet [Hrate Hyears]].
  destruct (writable_sheet_written Hsheet) as [e [Hgen [Htag Hread]]].
  unfold Summary.generate_etree_element. rewrite Hgen. simpl.
  unfold Summary.create_from_etree_element, etree.find_text, etree.find.
  simpl. destruct e as [T x c]. simpl in Htag. subst T. simpl.
  rewrite Hread. simpl.
  unfold survives_text in Hrate. rewrite Hrate. simpl.
  unfold years_survive in Hyears. rewrite Hyears. reflexivity.
Qed.

(** A writer raises nothing but [ValueError]. *)
Lemma rmap_refused {A : Type} (gen : A -> result etree.Element)
    (accepted : A -> bool) (l : list A) :
  (forall a, accepted a = false -> gen a = Raise ValueError) ->
  (forall a, accepted a = true -> exists e, gen a = Ok e) ->
  forallb accepted l = false ->
  rmap gen l = Raise ValueError.
Proof.
  intros Hno Hyes. induction l as [| a l IH]; simpl.
  - discriminate.
  - destruct (accepted a) eqn:Ha; simpl.
    + intros Hl. destruct (Hyes a Ha) as [e He]. rewrite He. simpl.
      rewrite (IH Hl). reflexivity.
    + intros _. rewrite (Hno a Ha). reflexivity.
Qed.

Lemma rmap_accepted {A : Type} (gen : A -> result etree.Element)
    (accepted : A -> bool) (l : list A) :
  (forall a, accepted a = true -> exists e, gen a = Ok e) ->
  forallb accepted l = true ->
  exists es, rmap gen l = Ok es.
Proof.
  intros Hyes. induction l as [| a l IH]; simpl.
  - exists []. reflexivity.
  - intros H. apply andb_prop in H. destruct H as [Ha Hl].
    destruct (Hyes a Ha) as [e He]. destruct (IH Hl) as [es Hes].
    exists (e :: es). rewrite He. simpl. rewrite Hes. reflexivity.
Qed.

Lemma item_refused (i : CashFlowItem.t (F:=F)) :
  item_accepted i = false ->
  CashFlowItem.generate_etree_element i = Raise ValueError.
Proof.
  unfold item_accepted, CashFlowItem.generate_etree_element. intros H.
  pose proof (text_refused_raises _ _ H) as Hraise.
  destruct (etree.SubElement_text "name" (CashFlowItem.name i)) as [x | err];
    simpl in *; [ | congruence].
  destruct (etree.SubElement_text "desc" (Some (CashFlowItem.desc i)))
    as [y | err]; simpl in *; [discriminate Hraise | congruence].
Qed.

Lemma item_accepted_written (i : CashFlowItem.t (F:=F)) :
  item_accepted i = true ->
  exists e, CashFlowItem.generate_etree_element i = Ok e.
Proof.
  unfold item_accepted, CashFlowItem.generate_etree_element. intros H.
  destruct (text_accepted_written _ _ H) as [Hname Hdesc].
  rewrite Hname, Hdesc. simpl. eexists. reflexivity.
Qed.

Lemma group_refused (g : CashFlowGroup.t (F:=F)) :
  group_accepted g = false ->
  CashFlowGroup.generate_etree_element g = Raise ValueError.
Proof.
  unfold group_accepted, CashFlowGroup.generate_etree_element. intros H.
  destruct (text_accepted (CashFlowGroup.name g) (CashFlowGroup.desc g))
    eqn:Htext; simpl in H.
  - destruct (text_accepted_written _ _ Htext) as [Hname Hdesc].
    rewrite Hname, Hdesc. simpl.
    rewrite (rmap_refused _ _ _ item_refused item_accepted_written H).
    reflexivity.
  - pose proof (text_refused_raises _ _ Htext) as Hraise.
    destruct (etree.SubElement_text "name" (CashFlowGroup.name g)) as [x | err];
      simpl in *; [ | congruence].
    destruct (etree.SubElement_text "desc" (Some (CashFlowGroup.desc g)))
      as [y | err]; simpl in *; [discriminate Hraise | congruence].
Qed.

Lemma group_accepted_written (g : CashFlowGroup.t (F:=F)) :
  group_accepted g = true ->
  exists e, CashFlowGroup.generate_etree_element g = Ok e.
Proof.
  unfold group_accepted, CashFlowGroup.generate_etree_element. intros H.
  apply andb_prop in H. destruct H as [Htext Hitems].
  destruct (text_accepted_written _ _ Htext) as [Hname Hdesc].
  destruct (rmap_accepted _ _ _ item_accepted_written Hitems) as [es Hes].
  rewrite Hname, Hdesc. simpl. rewrite Hes. simpl. eexists. reflexivity.
Qed.

(** X19. The writers raise exactly where lxml refuses a text: a sheet
    one of whose groups or items has a name or a description that is not
    XML compatible (a NUL byte, a control character) is not written, its
    writer and the writer of its summary raise [ValueError]; with
    XML-compatible names and descriptions throughout both return an
    element. *)
Theorem writers_refuse_control_characters :
  forall (s : Summary.t (F:=F)),
    (sheet_accepted (Summary.cash_flow_sheet s) = false ->
     CashFlowSheet.generate_etree_element (Summary.cash_flow_sheet s)
       = Raise ValueError
     /\ Summary.generate_etree_element s = Raise ValueError)
    /\ (sheet_accepted (Summary.cash_flow_sheet s) = true ->
        (exists e, CashFlowSheet.generate_etree_element (Summary.cash_flow_sheet s)
                   = Ok e)
        /\ exists e, Summary.generate_etree_element s = Ok e).
Proof.
  intros s. unfold sheet_accepted, Summary.generate_etree_element,
    CashFlowSheet.generate_etree_element.
  split; intros H.
  - rewrite (rmap_refused _ _ _ group_refused group_accepted_written H).
    split; reflexivity.
  - destruct (rmap_accepted _ _ _ group_accepted_written H) as [es Hes].
    rewrite Hes. simpl. split; eexists; reflexivity.
Qed.

End ReadingBack.

Lemma distribution_written_then_read_witness :
  random_type.create_from_etree_element
    (random_type.generate_etree_element Examples.pareto_1_7)
  = Ok (Some Examples.pareto_1_7).
Proof.
  refine (proj1 (distribution_written_then_read (d := Examples.pareto_1_7) _)).
  split; [vm_compute; reflexivity | ].
  split; [vm_compute; reflexivity | ].
  repeat constructor; vm_compute; reflexivity.
Defined.

Lemma sheet_w_writable : sheet_writable Examples.sheet_w.
Proof.
  repeat constructor; vm_compute; reflexivity.
Qed.

Lemma hierarchy_written_then_read_witness :
  (e <-r CashFlowSheet.generate_etree_element Examples.sheet_w ;;
   CashFlowSheet.create_from_etree_element e)
  = Ok Examples.sheet_w.
Proof.
  refine (proj2 (proj2 (hierarchy_written_then_read (F:=float)))
            Examples.sheet_w _).
  exact sheet_w_writable.
Defined.

(** [summary_w] was built with 500 iterations. *)
Lemma summary_written_then_read_witness :
  (e <-r Summary.generate_etree_element Examples.summary_w ;;
   Summary.create_from_etree_element e)
  = Ok (Summary.init Examples.sheet_w 0.5%float 4 10000).
Proof.
  refine (summary_written_then_read (s := Examples.summary_w) _).
  split; [exact sheet_w_writable | ].
  split; vm_compute; reflexivity.
Defined.

(** A description that starts with the control character U+0001 stops
    the writers of the sheet and of the summary that hold it. *)
Lemma writers_refuse_control_characters_witness :
  CashFlowSheet.generate_etree_element Examples.sheet_ctl = Raise ValueError
  /\ Summary.generate_etree_element
       (Summary.init Examples.sheet_ctl 0.5%float 4 500)
     = Raise ValueError.
Proof.
  refine (proj1 (writers_refuse_control_characters
                   (Summary.init Examples.sheet_ctl 0.5%float 4 500)) _).
  vm_compute. reflexivity.
Defined.

(** ** Reading malformed and unusual records *)

Section ReadingRecords.

Context {F : Type} {num : PyFloat F} {txt : PyText F}.

(** The loop over the records of a cost element keeps the last one. *)
Lemma last_created_keeps_last (els : list etree.Element) (final : etree.Element)
    (cost : option (option (RandomType (F:=F)))) :
  Forall (fun el => exists c, random_type.create_from_etree_element (F:=F) el = Ok c)
         els ->
  CashFlowItem.last_created (els ++ [final]) cost
  = (c <-r random_type.create_from_etree_element final ;; Ok (Some c)).
Proof.
  intros Hall. revert cost. induction Hall as [| el els [c Hc] _ IH]; intros cost.
  - reflexivity.
  - simpl. rewrite Hc. simpl. apply IH.
Qed.

(** X4. Reading an item element in which [name] and [desc] are found:
    without an [upfrontCost] element the loop iterates over [None] and the
    read is a TypeError; with an [upfrontCost] element that holds no record
    the local stays unbound and, once the recurring cost has been read,
    the read is an UnboundLocalError; with several records that all read,
    the item takes the last of them. *)
Theorem item_cost_records :
  forall (e : etree.Element) (n d : option string),
    etree.find_text e "name" = Ok n ->
    etree.find_text e "desc" = Ok d ->
    (etree.find e "upfrontCost" = None ->
     CashFlowItem.create_from_etree_element (F:=F) e
     = Raise (TypeError "'NoneType' object is not iterable"))
    /\ (forall u r rc,
          etree.find e "upfrontCost" = Some u ->
          etree.children u = [] ->
          etree.find e "recurringCost" = Some r ->
          CashFlowItem.last_created (F:=F) (etree.children r) None = Ok rc ->
          CashFlowItem.create_from_etree_element (F:=F) e
          = Raise UnboundLocalError)
    /\ (forall u r els final single up rc,
          etree.find e "upfrontCost" = Some u ->
          etree.children u = els ++ [final] ->
          Forall (fun el => exists c,
                    random_type.create_from_etree_element (F:=F) el = Ok c) els ->
          random_type.create_from_etree_element final = Ok (Some up) ->
          etree.find e "recurringCost" = Some r ->
          etree.children r = [single] ->
          random_type.create_from_etree_element single = Ok (Some rc) ->
          CashFlowItem.create_from_etree_element e
          = Ok (CashFlowItem.make n
                  (match d with None => "" | Some text => text end) up rc)).
Proof.
  intros e n d Hn Hd.
  unfold CashFlowItem.create_from_etree_element, CashFlowItem.iter_found.
  rewrite Hn, Hd. simpl.
  split; [ | split].
  - intros Hup. rewrite Hup. reflexivity.
  - intros u r rc Hup Hnone Hrec Hloop.
    rewrite Hup, Hnone, Hrec. simpl. rewrite Hloop. reflexivity.
  - intros u r els final single up rc Hup Hels Hall Hfinal Hrec Hsingle Hrc.
    rewrite Hup, Hels, Hrec, Hsingle. simpl.
    rewrite (last_created_keeps_last final None Hall), Hfinal. simpl.
    rewrite Hrc. reflexivity.
Qed.

(** X5. A bound element without text is read as the default of that
    bound, 0 for the start and +infinity for the end; a record without
    the bound element at all is not read: the reader of each class
    raises. *)
Theorem bounds_without_text_are_defaults :
  forall (e : etree.Element),
    (etree.find_text e "startYear" = Ok None ->
     etree.find_text e "endYear" = Ok None ->
     (forall d, Gaussian.create_from_etree_element (F:=F) e = Ok d ->
                Gaussian.start_year d = of_int 0 /\ Gaussian.end_year d = finf)
     /\ (forall d, Constant.create_from_etree_element (F:=F) e = Ok d ->
                   Constant.start_year d = of_int 0 /\ Constant.end_year d = finf)
     /\ (forall d, Pareto.create_from_etree_element (F:=F) e = Ok d ->
                   Pareto.start_year d = of_int 0 /\ Pareto.end_year d = finf))
    /\ (etree.find e "startYear" = None \/ etree.find e "endYear" = None ->
        (forall d, Gaussian.create_from_etree_element (F:=F) e <> Ok d)
        /\ (forall d, Constant.create_from_etree_element (F:=F) e <> Ok d)
        /\ (forall d, Pareto.create_from_etree_element (F:=F) e <> Ok d)).
Proof.
  intros e. split.
  - intros Hs He.
    unfold Gaussian.create_from_etree_element, Constant.create_from_etree_element,
      Pareto.create_from_etree_element.
    rewrite Hs, He. simpl.
    split; [ | split]; intros d Hread.
    + destruct (x <-r etree.find_text e "mu" ;; float_of x); [ | discriminate].
      simpl in Hread.
      destruct (x <-r etree.find_text e "sigma" ;; float_of x); [ | discriminate].
      simpl in Hread. inversion Hread. split; reflexivity.
    + destruct (x <-r etree.find_text e "value" ;; float_of x); [ | discriminate].
      simpl in Hread. inversion Hread. split; reflexivity.
    + destruct (x <-r etree.find_text e "alpha" ;; float_of x); [ | discriminate].
      simpl in Hread. inversion Hread. split; reflexivity.
  - intros Hmissing.
    assert (Hbounds :
      forall A (k : F -> F -> result A) a,
        (sy <-r (x <-r etree.find_text e "startYear" ;;
                 _value_or_default x (of_int 0)) ;;
         ey <-r (x <-r etree.find_text e "endYear" ;; _value_or_default x finf) ;;
         k sy ey) <> Ok a).
    { intros A k a. unfold etree.find_text.
      destruct Hmissing as [Hs | He].
      - rewrite Hs. simpl. discriminate.
      - rewrite He.
        destruct (etree.find e "startYear") as [c | ]; simpl; [ | discriminate].
        destruct (_value_or_default (etree.text c) (of_int 0)); simpl;
          discriminate. }
    unfold Gaussian.create_from_etree_element, Constant.create_from_etree_element,
      Pareto.create_from_etree_element.
    split; [ | split]; intros d.
    + destruct (x <-r etree.find_text e "mu" ;; float_of x); [ | discriminate].
      simpl.
      destruct (x <-r etree.find_text e "sigma" ;; float_of x); [ | discriminate].
      simpl. apply Hbounds.
    + destruct (x <-r etree.find_text e "value" ;; float_of x); [ | discriminate].
      simpl. apply Hbounds.
    + destruct (x <-r etree.find_text e "alpha" ;; float_of x); [ | discriminate].
      simpl. apply Hbounds.
Qed.

End ReadingRecords.

(** ** Adding, looking up and removing *)

Section Collections.

Context {F : Type} {num : PyFloat F}.

Lemma check_all_Other {A : Type} (msg : string) (xs : list (dyn A)) :
  In Other xs -> check_all msg xs = Raise (TypeError msg).
Proof.
  induction xs as [| x xs IH]; intros Hin.
  - destruct Hin.
  - destruct x as [a | ]; simpl.
    + destruct Hin as [Habs | Hin]; [discriminate | ].
      rewrite (IH Hin). reflexivity.
    + reflexivity.
Qed.

(** An iterable holds instances only, or it holds some other object. *)
Lemma instances_or_other {A : Type} (xs : list (dyn A)) :
  (exists l, xs = map Is l) \/ In Other xs.
Proof.
  induction xs as [| x xs IH].
  - left. exists []. reflexivity.
  - destruct x as [a | ].
    + destruct IH as [[l Hl] | Hin].
      * left. exists (a :: l). rewrite Hl. reflexivity.
      * right. right. exact Hin.
    + right. left. reflexivity.
Qed.

Lemma add_items_run (x : arg (CashFlowItem.t (F:=F))) (g : CashFlowGroup.t) :
  CashFlowGroup.add_items x g
  = match check_arg "Items must be a list of CashFlowItem" x with
    | Ok l => (Ok tt, CashFlowGroup.make (CashFlowGroup.name g)
                        (CashFlowGroup.desc g) (CashFlowGroup.items g ++ l))
    | Raise err => (Raise err, g)
    end.
Proof.
  unfold CashFlowGroup.add_items, CashFlowGroup._check_items, bind, lift, get, put.
  destruct (check_arg "Items must be a list of CashFlowItem" x); reflexivity.
Qed.

Lemma add_groups_run (x : arg (CashFlowGroup.t (F:=F))) (s : CashFlowSheet.t) :
  CashFlowSheet.add_groups x s
  = match check_arg "Groups must be a list of CashFlowGroup" x with
    | Ok l => (Ok tt, CashFlowSheet.make (CashFlowSheet.groups s ++ l))
    | Raise err => (Raise err, s)
    end.
Proof.
  unfold CashFlowSheet.add_groups, CashFlowSheet._check_groups, bind, lift, get, put.
  destruct (check_arg "Groups must be a list of CashFlowGroup" x); reflexivity.
Qed.

(** X6. [add_items] and [add_groups] check every element before they
    extend: a list of instances is appended at the end in its order, and
    a list that holds anything else raises TypeError and adds nothing,
    not even the instances that stand before the offending element. *)
Theorem add_is_all_or_nothing :
  (forall (g : CashFlowGroup.t (F:=F)) (xs : list (dyn CashFlowItem.t)),
      (forall l, xs = map Is l ->
         CashFlowGroup.add_items (Many xs) g
         = (Ok tt, CashFlowGroup.make (CashFlowGroup.name g)
                     (CashFlowGroup.desc g) (CashFlowGroup.items g ++ l)))
      /\ (In Other xs ->
          CashFlowGroup.add_items (Many xs) g
          = (Raise (TypeError "Items must be a list of CashFlowItem"), g)))
  /\ (forall (s : CashFlowSheet.t (F:=F)) (xs : list (dyn CashFlowGroup.t)),
        (forall l, xs = map Is l ->
           CashFlowSheet.add_groups (Many xs) s
           = (Ok tt, CashFlowSheet.make (CashFlowSheet.groups s ++ l)))
        /\ (In Other xs ->
            CashFlowSheet.add_groups (Many xs) s
            = (Raise (TypeError "Groups must be a list of CashFlowGroup"), s))).
Proof.
  split.
  - intros g xs. rewrite add_items_run. simpl. split.
    + intros l Hl. subst xs. rewrite check_all_Is. reflexivity.
    + intros Hin. rewrite (check_all_Other _ xs Hin). reflexivity.
  - intros s xs. rewrite add_groups_run. simpl. split.
    + intros l Hl. subst xs. rewrite check_all_Is. reflexivity.
    + intros Hin. rewrite (check_all_Other _ xs Hin). reflexivity.
Qed.

(** X7. Assigning to [items] (or to [groups]) empties the collection
    before the new value is checked: an assignment that is rejected with
    TypeError leaves the group (the sheet) with no items (no groups),
    whatever it held before. *)
Theorem rejected_assignment_empties :
  (forall (g : CashFlowGroup.t (F:=F)) (xs : list (dyn CashFlowItem.t)),
      In Other xs ->
      CashFlowGroup.set_items (Many xs) g
      = (Raise (TypeError "Items must be a list of CashFlowItem"),
         CashFlowGroup.make (CashFlowGroup.name g) (CashFlowGroup.desc g) []))
  /\ (forall (s : CashFlowSheet.t (F:=F)) (xs : list (dyn CashFlowGroup.t)),
        In Other xs ->
        CashFlowSheet.set_groups (Many xs) s
        = (Raise (TypeError "Groups must be a list of CashFlowGroup"),
           CashFlowSheet.make [])).
Proof.
  split.
  - intros g xs Hin. unfold CashFlowGroup.set_items, bind, get, put.
    rewrite add_items_run. simpl. rewrite (check_all_Other _ xs Hin).
    reflexivity.
  - intros s xs Hin. unfold CashFlowSheet.set_groups, bind, put.
    rewrite add_groups_run. simpl. rewrite (check_all_Other _ xs Hin).
    reflexivity.
Qed.

Lemma filter_split_length {A : Type} (f : A -> bool) (l : list A) :
  (List.length (filter f l) + List.length (filter (fun a => negb (f a)) l)
   = List.length l)%nat.
Proof.
  induction l as [| a l IH]; simpl.
  - reflexivity.
  - destruct (f a); simpl; lia.
Qed.

Lemma filter_of_rejected {A : Type} (f : A -> bool) (l : list A) :
  filter f (filter (fun a => negb (f a)) l) = [].
Proof.
  induction l as [| a l IH]; simpl.
  - reflexivity.
  - destruct (f a) eqn:E; simpl.
    + exact IH.
    + rewrite E. exact IH.
Qed.

Lemma filter_twice {A : Type} (f h : A -> bool) (l : list A) :
  filter h (filter f l) = filter (fun a => f a && h a) l.
Proof.
  induction l as [| a l IH]; simpl.
  - reflexivity.
  - destruct (f a); simpl.
    + destruct (h a); rewrite IH; reflexivity.
    + exact IH.
Qed.

Lemma name_in_app (n : option string) (names1 names2 : list string) :
  name_in n (names1 ++ names2) = name_in n names1 || name_in n names2.
Proof.
  destruct n as [s | ]; simpl.
  - apply existsb_app.
  - reflexivity.
Qed.

(** X8. [get_items] and [remove_items] split a group by the same test:
    the items a lookup returns and the items a removal leaves make up the
    group, each item on exactly one side, and after the removal a lookup
    of the same names finds nothing.  The same holds for [get_groups] and
    [remove_groups] on a sheet. *)
Theorem lookup_and_removal_split :
  forall (names : list string),
    (forall g : CashFlowGroup.t (F:=F),
        exists g',
          CashFlowGroup.remove_items names g = (Ok tt, g')
          /\ CashFlowGroup.get_items g' names = []
          /\ (List.length (CashFlowGroup.get_items g names)
              + List.length (CashFlowGroup.items g')
              = List.length (CashFlowGroup.items g))%nat
          /\ (forall item, In item (CashFlowGroup.items g) <->
                In item (CashFlowGroup.get_items g names)
                \/ In item (CashFlowGroup.items g'))
          /\ (forall item, In item (CashFlowGroup.get_items g names) ->
                ~ In item (CashFlowGroup.items g')))
    /\ (forall s : CashFlowSheet.t (F:=F),
        exists s',
          CashFlowSheet.remove_groups names s = (Ok tt, s')
          /\ CashFlowSheet.get_groups s' names = []
          /\ (List.length (CashFlowSheet.get_groups s names)
              + List.length (CashFlowSheet.groups s')
              = List.length (CashFlowSheet.groups s))%nat
          /\ (forall group, In group (CashFlowSheet.groups s) <->
                In group (CashFlowSheet.get_groups s names)
                \/ In group (CashFlowSheet.groups s'))
          /\ (forall group, In group (CashFlowSheet.get_groups s names) ->
                ~ In group (CashFlowSheet.groups s'))).
Proof.
  intros names. split.
  - intros g. eexists. split; [apply remove_items_run | ].
    unfold CashFlowGroup.get_items, kept_items. simpl.
    split; [apply filter_of_rejected | ].
    split; [apply filter_split_length | ].
    split.
    + intros item. rewrite !filter_In.
      destruct (name_in (CashFlowItem.name item) names); simpl; intuition congruence.
    + intros item Hfound Hkept. apply filter_In in Hfound, Hkept.
      destruct Hfound as [_ Hyes]. destruct Hkept as [_ Hno].
      rewrite Hyes in Hno. discriminate.
  - intros s. eexists. split; [apply remove_groups_run | ].
    unfold CashFlowSheet.get_groups, kept_groups. simpl.
    split; [apply filter_of_rejected | ].
    split; [apply filter_split_length | ].
    split.
    + intros group. rewrite !filter_In.
      destruct (name_in (CashFlowGroup.name group) names); simpl; intuition congruence.
    + intros group Hfound Hkept. apply filter_In in Hfound, Hkept.
      destruct Hfound as [_ Hyes]. destruct Hkept as [_ Hno].
      rewrite Hyes in Hno. discriminate.
Qed.

(** X9. Removals compose: removing [names1] and then [names2] is
    removing [names1 ++ names2] at once, so the order of two removals
    does not matter and repeating a removal changes nothing. *)
Theorem removals_compose :
  forall (names1 names2 : list string) (g : CashFlowGroup.t (F:=F)),
    (CashFlowGroup.remove_items names1 ;;; CashFlowGroup.remove_items names2) g
    = CashFlowGroup.remove_items (names1 ++ names2) g
    /\ (CashFlowGroup.remove_items names1 ;;; CashFlowGroup.remove_items names2) g
       = (CashFlowGroup.remove_items names2 ;;; CashFlowGroup.remove_items names1) g
    /\ (CashFlowGroup.remove_items names1 ;;; CashFlowGroup.remove_items names1) g
       = CashFlowGroup.remove_items names1 g.
Proof.
  intros names1 names2 g.
  assert (Hseq : forall n1 n2,
    (CashFlowGroup.remove_items n1 ;;; CashFlowGroup.remove_items n2) g
    = (Ok tt, CashFlowGroup.make (CashFlowGroup.name g) (CashFlowGroup.desc g)
                (filter (fun item =>
                           negb (name_in (CashFlowItem.name item) n1)
                           && negb (name_in (CashFlowItem.name item) n2))
                        (CashFlowGroup.items g)))).
  { intros n1 n2. unfold bind. rewrite !remove_items_run.
    unfold kept_items. simpl. rewrite filter_twice. reflexivity. }
  split; [ | split].
  - rewrite Hseq, remove_items_run. unfold kept_items. do 2 f_equal.
    apply filter_ext. intros item. rewrite name_in_app, negb_orb. reflexivity.
  - rewrite !Hseq. do 2 f_equal.
    apply filter_ext. intros item. apply andb_comm.
  - rewrite Hseq, remove_items_run. unfold kept_items. do 2 f_equal.
    apply filter_ext. intros item. apply andb_diag.
Qed.

End Collections.

(** ** One sampling of a sheet *)

Section Sampling.

Context {F : Type} {num : PyFloat F}.
Context {Rng : Type} {rnd : PyRandom F Rng} {np : Numpy F}.

Lemma mapM_Forall2 {A B : Type} (f : A -> M Rng B) (P : A -> B -> Prop) :
  (forall x g g' y, f x g = (Ok y, g') -> P x y) ->
  forall xs g g' ys, mapM f xs g = (Ok ys, g') -> Forall2 P xs ys.
Proof.
  intros Hf. induction xs as [| x xs IH]; intros g g' ys Hrun; simpl in Hrun.
  - inversion Hrun. constructor.
  - unfold bind in Hrun.
    destruct (f x g) as [[y | e] g1] eqn:Hx; [ | discriminate].
    destruct (mapM f xs g1) as [[ys' | e] g2] eqn:Hrest; [ | discriminate].
    inversion Hrun; subst. constructor.
    + exact (Hf _ _ _ _ Hx).
    + exact (IH _ _ _ Hrest).
Qed.

Lemma row_shape (sheet : CashFlowSheet.t (F:=F))
    (f : CashFlowGroup.t -> M Rng (list F)) :
  (forall grp g g' l, f grp g = (Ok l, g') ->
     List.length l = List.length (CashFlowGroup.items grp)) ->
  forall g g' row,
    mapM f (CashFlowSheet.groups sheet) g = (Ok row, g') ->
    map (@List.length F) row = sheet_shape sheet.
Proof.
  intros Hf g g' row Hrun. unfold sheet_shape.
  pose proof (mapM_Forall2 f
                (fun grp l => List.length l = List.length (CashFlowGroup.items grp))
                Hf _ _ Hrun) as Hall.
  clear Hrun. induction Hall as [| grp l groups row' Hl _ IH]; simpl.
  - reflexivity.
  - rewrite Hl, IH. reflexivity.
Qed.

(** X10. A sampling that succeeds returns one entry per year: the
    upfront costs, then the recurring costs of the years 1 to [years]
    (none when [years] is not positive).  Every entry has the shape of the
    sheet, one list per group with one value per item, and the net cash
    flow of a year is the sum, over the groups, of the sums of their
    values. *)
Theorem get_cash_flow_shape :
  forall (sheet : CashFlowSheet.t (F:=F)) (years : Z) (g g' : Rng)
         (total : list (list (list F))) (net : list F),
    CashFlowSheet.get_cash_flow sheet years g = (Ok (total, net), g') ->
    List.length total = S (Z.to_nat years)
    /\ Forall (fun row => map (@List.length F) row = sheet_shape sheet) total
    /\ net = map (fun row => py_sum (map py_sum row)) total.
Proof.
  intros sheet years g g' total net Hrun.
  unfold CashFlowSheet.get_cash_flow, bind in Hrun.
  destruct (CashFlowSheet.get_upfront_cost sheet g) as [[up | e] g1] eqn:Hup;
    [ | discriminate].
  destruct (mapM (CashFlowSheet.get_recurring_cost sheet)
              (py_range 1 (years + 1)) g1) as [[recurring | e] g2] eqn:Hrec;
    [ | discriminate].
  inversion Hrun; subst. clear Hrun.
  split; [ | split].
  - apply mapM_length in Hrec. unfold py_range in Hrec.
    rewrite length_map, length_seq in Hrec. simpl. rewrite Hrec.
    f_equal. f_equal. lia.
  - constructor.
    + unfold CashFlowSheet.get_upfront_cost in Hup.
      eapply (row_shape sheet CashFlowGroup.get_upfront_cost); [ | exact Hup].
      intros grp h h' l Hl. exact (mapM_length _ _ _ Hl).
    + pose proof (mapM_Forall2 (CashFlowSheet.get_recurring_cost sheet)
                    (fun _ row => map (@List.length F) row = sheet_shape sheet))
        as Hrows.
      assert (Hall : Forall2 (fun (_ : Z) row =>
                                map (@List.length F) row = sheet_shape sheet)
                       (py_range 1 (years + 1)) recurring).
      { eapply Hrows; [ | exact Hrec].
        intros year h h' row Hrow.
        unfold CashFlowSheet.get_recurring_cost in Hrow.
        eapply (row_shape sheet
                  (fun x => CashFlowGroup.get_recurring_cost x year));
          [ | exact Hrow].
        intros grp k k' l Hl. exact (mapM_length _ _ _ Hl). }
      clear - Hall. induction Hall; constructor; assumption.
  - reflexivity.
Qed.

Lemma constant_sample_pure (d : RandomType (F:=F)) (year : Z) :
  is_constant d = true ->
  exists v, forall g : Rng, sample_value d year g = (Ok v, g).
Proof.
  destruct d as [d | c | d]; try discriminate. intros _.
  simpl. unfold Constant.sample_value.
  destruct (active (Constant.start_year c) (Constant.end_year c) year).
  - exists (Constant.value c). reflexivity.
  - exists fzero. reflexivity.
Qed.

(** A list of computations that each leave the generator alone. *)
Lemma mapM_pure_exists {A B : Type} (f : A -> M Rng B) (xs : list A) :
  (forall x, In x xs -> exists y, forall g, f x g = (Ok y, g)) ->
  exists ys, forall g, mapM f xs g = (Ok ys, g).
Proof.
  induction xs as [| x xs IH]; intros Hf.
  - exists []. reflexivity.
  - destruct (Hf x (or_introl eq_refl)) as [y Hy].
    destruct IH as [ys Hys].
    { intros z Hz. apply Hf. right. exact Hz. }
    exists (y :: ys). intros g. simpl. unfold bind. rewrite Hy, Hys. reflexivity.
Qed.

(** X11. A sheet all of whose costs are constants samples without the
    generator: for a given horizon every sampling succeeds, returns the
    same flows and leaves the generator as it was, so resampling a summary
    of such a sheet stores the same cache again. *)
Theorem constant_sheet_samples_the_same :
  forall (sheet : CashFlowSheet.t (F:=F)) (years : Z),
    sheet_constant sheet = true ->
    exists flows,
      (forall g : Rng, CashFlowSheet.get_cash_flow sheet years g = (Ok flows, g))
      /\ (forall (s : Summary.t) (g : Rng),
            Summary.cash_flow_sheet s = sheet ->
            Summary.years s = years ->
            Summary.sample_cash_flow (s, g) = (Ok tt, (with_flows s flows, g))).
Proof.
  intros sheet years Hconst. unfold sheet_constant in Hconst.
  rewrite forallb_forall in Hconst.
  assert (Hitem : forall grp i,
            In grp (CashFlowSheet.groups sheet) ->
            In i (CashFlowGroup.items grp) -> item_constant i = true).
  { intros grp i Hgrp Hi. specialize (Hconst grp Hgrp).
    rewrite forallb_forall in Hconst. exact (Hconst i Hi). }
  assert (Hup : exists up, forall g,
            CashFlowSheet.get_upfront_cost sheet g = (Ok up, g)).
  { apply mapM_pure_exists. intros grp Hgrp.
    apply mapM_pure_exists. intros i Hi.
    pose proof (Hitem grp i Hgrp Hi) as Hc. unfold item_constant in Hc.
    apply andb_true_iff in Hc. destruct Hc as [Hc _].
    exact (constant_sample_pure _ 0 Hc). }
  assert (Hrec : exists recurring, forall g,
            mapM (CashFlowSheet.get_recurring_cost sheet)
                 (py_range 1 (years + 1)) g = (Ok recurring, g)).
  { apply mapM_pure_exists. intros year _.
    apply mapM_pure_exists. intros grp Hgrp.
    apply mapM_pure_exists. intros i Hi.
    pose proof (Hitem grp i Hgrp Hi) as Hc. unfold item_constant in Hc.
    apply andb_true_iff in Hc. destruct Hc as [_ Hc].
    exact (constant_sample_pure _ year Hc). }
  destruct Hup as [up Hup]. destruct Hrec as [recurring Hrec].
  assert (Hflows : forall g,
            CashFlowSheet.get_cash_flow sheet years g
            = (Ok ([up] ++ recurring,
                   map (fun row => py_sum (map py_sum row)) ([up] ++ recurring)),
               g)).
  { intros g. unfold CashFlowSheet.get_cash_flow, bind.
    rewrite Hup, Hrec. reflexivity. }
  eexists. split; [exact Hflows | ].
  intros s g Hsheet Hyears. rewrite sample_cash_flow_run, Hsheet, Hyears, Hflows.
  reflexivity.
Qed.

(** X12. With a negative horizon a sampling stores a single entry, and
    on such a cache the payback period is an IndexError: the loop does not
    run, [complete_years] is [years - 1], and the subscript is out of
    range. *)
Theorem payback_period_negative_horizon :
  forall (s : Summary.t (F:=F)) (g : Rng) (x : F),
    Summary.sampled s = true ->
    Summary._net_cash_flow s = Some [x] ->
    Summary.years s < 0 ->
    Summary.get_payback_period (s, g) = (Raise IndexError, (s, g)).
Proof.
  intros s g x Hs Hcache Hneg.
  rewrite (get_payback_period_sampled s g Hs), Hcache. simpl.
  unfold payback_of, py_range.
  replace (Z.to_nat (Summary.years s - 0)) with 0%nat by lia.
  simpl. unfold py_getitem. simpl.
  destruct (Z.ltb_spec (Summary.years s - 1) 0) as [_ | Hge]; [ | lia].
  destruct (Z.leb_spec 0 (Summary.years s - 1 + 1)) as [Hle | _]; [lia | ].
  reflexivity.
Qed.

End Sampling.

(** ** A failing item fails the whole load *)

Section NoPartialLoad.

Context {F : Type} {num : PyFloat F} {txt : PyText F}.

Lemma rmap_raises {A B : Type} (f : A -> result B) (xs : list A) (x : A) :
  In x xs -> (exists err, f x = Raise err) -> exists err, rmap f xs = Raise err.
Proof.
  intros Hin Hx. induction xs as [| y xs IH].
  - destruct Hin.
  - simpl. destruct (f y) as [b | err] eqn:Hy; simpl.
    + destruct Hin as [Heq | Hin].
      * subst y. destruct Hx as [err Herr]. congruence.
      * destruct (IH Hin) as [err Herr]. rewrite Herr. exists err. reflexivity.
    + exists err. reflexivity.
Qed.

Lemma group_with_failing_item (ge ie : etree.Element) :
  In ie (etree.findall ge "CashFlowItem") ->
  (exists err, CashFlowItem.create_from_etree_element (F:=F) ie = Raise err) ->
  exists err, CashFlowGroup.create_from_etree_element (F:=F) ge = Raise err.
Proof.
  intros Hin Hfail. unfold CashFlowGroup.create_from_etree_element.
  destruct (etree.find_text ge "name") as [n | err]; simpl;
    [ | exists err; reflexivity].
  destruct (etree.find_text ge "desc") as [d | err]; simpl;
    [ | exists err; reflexivity].
  destruct (rmap_raises _ _ _ Hin Hfail) as [err Herr].
  rewrite Herr. exists err. reflexivity.
Qed.

(** X13. A load builds nothing when one item cannot be read: if any item
    element of any group element of the sheet element raises, the read of
    the group, of the sheet and of the whole summary raises as well. *)
Theorem failing_item_fails_the_load :
  forall (e sh ge ie : etree.Element),
    etree.find e "CashFlowSheet" = Some sh ->
    In ge (etree.findall sh "CashFlowGroup") ->
    In ie (etree.findall ge "CashFlowItem") ->
    (exists err, CashFlowItem.create_from_etree_element (F:=F) ie = Raise err) ->
    (exists err, CashFlowGroup.create_from_etree_element (F:=F) ge = Raise err)
    /\ (exists err, CashFlowSheet.create_from_etree_element (F:=F) sh = Raise err)
    /\ (exists err, Summary.create_from_etree_element (F:=F) e = Raise err).
Proof.
  intros e sh ge ie Hsheet Hgroup Hitem Hfail.
  pose proof (group_with_failing_item ge ie Hitem Hfail) as Hg.
  assert (Hsh : exists err,
            CashFlowSheet.create_from_etree_element (F:=F) sh = Raise err).
  { unfold CashFlowSheet.create_from_etree_element.
    destruct (rmap_raises _ _ _ Hgroup Hg) as [err Herr].
    rewrite Herr. exists err. reflexivity. }
  split; [exact Hg | ]. split; [exact Hsh | ].
  unfold Summary.create_from_etree_element. rewrite Hsheet.
  destruct Hsh as [err Herr]. rewrite Herr. exists err. reflexivity.
Qed.

End NoPartialLoad.

(** ** The further properties on the examples *)

(** Of the two records under [upfrontCost] the Gaussian, the last one, is
    the upfront cost of the item; the missing description reads as "". *)
Lemma item_cost_records_witness :
  CashFlowItem.create_from_etree_element Examples.item_two_records
  = Ok (CashFlowItem.make (Some "w") ""
          Examples.gaussian_3_7 Examples.constant_1_7).
Proof.
  destruct (item_cost_records (F:=float) Examples.item_two_records
              (n := Some "w") (d := None) eq_refl eq_refl)
    as [_ [_ Hlast]].
  refine (Hlast
            (etree.Elem "upfrontCost" None
               [ random_type.generate_etree_element Examples.pareto_1_7;
                 random_type.generate_etree_element Examples.gaussian_3_7 ])
            (etree.Elem "recurringCost" None
               [ random_type.generate_etree_element Examples.constant_1_7 ])
            [ random_type.generate_etree_element Examples.pareto_1_7 ]
            (random_type.generate_etree_element Examples.gaussian_3_7)
            (random_type.generate_etree_element Examples.constant_1_7)
            Examples.gaussian_3_7 Examples.constant_1_7
            eq_refl eq_refl _ _ eq_refl eq_refl _).
  - constructor; [ | constructor].
    exists (Some Examples.pareto_1_7). vm_compute. reflexivity.
  - vm_compute. reflexivity.
  - vm_compute. reflexivity.
Defined.

Lemma bounds_without_text_witness :
  Constant.create_from_etree_element Examples.constant_no_bounds
  = Ok (Constant.make 5%float 0%float infinity)
  /\ Constant.start_year (Constant.make 5%float 0%float infinity) = 0%float
  /\ Constant.end_year (Constant.make 5%float 0%float infinity) = infinity.
Proof.
  assert (Hread : Constant.create_from_etree_element Examples.constant_no_bounds
                  = Ok (Constant.make 5%float 0%float infinity)).
  { vm_compute. reflexivity. }
  split; [exact Hread | ].
  destruct (proj1 (bounds_without_text_are_defaults (F:=float)
                     Examples.constant_no_bounds) eq_refl eq_refl)
    as [_ [Hconstant _]].
  exact (Hconstant _ Hread).
Defined.

(** Adding [item_b] and then a string to the group [a; b; a] adds nothing;
    assigning that list to [items] leaves the group empty. *)
Lemma add_is_all_or_nothing_witness :
  CashFlowGroup.add_items (Many [Is Examples.item_b; Other]) Examples.group_ab
  = (Raise (TypeError "Items must be a list of CashFlowItem"), Examples.group_ab)
  /\ CashFlowGroup.add_items (Many [Is Examples.item_b]) Examples.group_ab
     = (Ok tt, CashFlowGroup.make (Some "g") ""
                 [Examples.item_a; Examples.item_b; Examples.item_a;
                  Examples.item_b]).
Proof.
  destruct (proj1 (add_is_all_or_nothing (F:=float)) Examples.group_ab
              [Is Examples.item_b; Other]) as [_ Hbad].
  destruct (proj1 (add_is_all_or_nothing (F:=float)) Examples.group_ab
              [Is Examples.item_b]) as [Hgood _].
  split.
  - apply Hbad. right. left. reflexivity.
  - exact (Hgood [Examples.item_b] eq_refl).
Defined.

Lemma rejected_assignment_empties_witness :
  CashFlowGroup.set_items (Many [Is Examples.item_b; Other]) Examples.group_ab
  = (Raise (TypeError "Items must be a list of CashFlowItem"),
     CashFlowGroup.make (Some "g") "" []).
Proof.
  apply (proj1 (rejected_assignment_empties (F:=float)) Examples.group_ab
           [Is Examples.item_b; Other]).
  right. left. reflexivity.
Defined.

(** In the group [a; b; a] a lookup of "a" finds two items and a removal
    of "a" leaves one. *)
Lemma lookup_and_removal_split_witness :
  exists g',
    CashFlowGroup.remove_items ["a"] Examples.group_ab = (Ok tt, g')
    /\ CashFlowGroup.get_items g' ["a"] = []
    /\ (List.length (CashFlowGroup.get_items Examples.group_ab ["a"])
        + List.length (CashFlowGroup.items g') = 3)%nat.
Proof.
  destruct (proj1 (lookup_and_removal_split (F:=float) ["a"]) Examples.group_ab)
    as [g' [Hrun [Hnone [Hlen _]]]].
  exists g'. split; [exact Hrun | ]. split; [exact Hnone | exact Hlen].
Defined.

(** One sampling of the sheet with the group [a; b; a] over four years. *)
Lemma get_cash_flow_shape_witness :
  exists total net,
    CashFlowSheet.get_cash_flow
      (CashFlowSheet.make [Examples.group_ab]) 4 0%nat = (Ok (total, net), 4%nat)
    /\ List.length total = 5%nat
    /\ Forall (fun row => map (@List.length float) row = [3%nat]) total
    /\ net = [(-200)%float; 61%float; 62%float; 63%float; 64%float].
Proof.
  assert (Hrun :
    CashFlowSheet.get_cash_flow
      (CashFlowSheet.make [Examples.group_ab]) 4 0%nat
    = (Ok ([[[(-100)%float; 0%float; (-100)%float]];
            [[30%float; 1%float; 30%float]]; [[30%float; 2%float; 30%float]];
            [[30%float; 3%float; 30%float]]; [[30%float; 4%float; 30%float]]],
           [(-200)%float; 61%float; 62%float; 63%float; 64%float]),
       4%nat)).
  { vm_compute. reflexivity. }
  destruct (get_cash_flow_shape _ _ _ Hrun) as [Hlen [Hshape _]].
  eexists. eexists. split; [exact Hrun | ].
  split; [exact Hlen | ]. split; [exact Hshape | reflexivity].
Defined.

(** The sheet of [summary_a] holds constants only. *)
Lemma constant_sheet_samples_the_same_witness :
  exists flows,
    (forall g : nat,
        CashFlowSheet.get_cash_flow Examples.sheet_a 4 g = (Ok flows, g))
    /\ snd flows = [(-100)%float; 30%float; 30%float; 30%float; 30%float].
Proof.
  destruct (constant_sheet_samples_the_same (Rng:=nat) Examples.sheet_a 4 eq_refl)
    as [flows [Hflows _]].
  exists flows. split; [exact Hflows | ].
  pose proof (Hflows 0%nat) as Hrun. vm_compute in Hrun.
  inversion Hrun. reflexivity.
Defined.

Lemma payback_period_negative_horizon_witness :
  Summary.years Examples.sampled_negative = -1
  /\ Summary.get_payback_period (Examples.sampled_negative, 0%nat)
     = (Raise IndexError, (Examples.sampled_negative, 0%nat)).
Proof.
  split; [reflexivity | ].
  apply (payback_period_negative_horizon Examples.sampled_negative 0%nat
           (x := (-100)%float)).
  - reflexivity.
  - reflexivity.
  - vm_compute. reflexivity.
Defined.

(** The document [summary_uniform] holds, in its second group, an item
    with a cost of an unknown family: nothing of it is loaded. *)
Lemma failing_item_fails_the_load_witness :
  exists err,
    Summary.create_from_etree_element (F:=float) Examples.summary_uniform
    = Raise err.
Proof.
  refine (proj2 (proj2 (@failing_item_fails_the_load float binary64 binary64_text
            Examples.summary_uniform Examples.sheet_uniform
            Examples.group_uniform Examples.item_uniform eq_refl _ _ _))).
  - vm_compute. right. left. reflexivity.
  - vm_compute. right. left. reflexivity.
  - eexists. vm_compute. reflexivity.
Defined.

Lemma item_with_unknown_cost_tag_witness :
  CashFlowItem.create_from_etree_element (F:=float) Examples.item_uniform
  = Raise (TypeError "cost must be a RandomType, float or int").
Proof.
  apply (item_with_unknown_cost_tag_rejected (F:=float) (Some "u") None
           Examples.uniform_record
           [random_type.generate_etree_element Examples.constant_1_7]).
  - vm_compute. discriminate.
  - vm_compute. discriminate.
  - vm_compute. discriminate.
  - exists (Some Examples.constant_1_7). vm_compute. reflexivity.
Defined.

(** [Constant(5.0)], with both bounds at their defaults. *)
Lemma default_bound_not_read_back_witness :
  exists err,
    random_type.create_from_etree_element
      (random_type.generate_etree_element
         (IsConstant (Constant.of_value 5%float)))
    = Raise err.
Proof.
  apply (default_bound_not_read_back (F:=float)
           (IsConstant (Constant.of_value 5%float))).
  - vm_compute. reflexivity.
  - left. vm_compute. reflexivity.
Defined.

(** ** Not-a-number bounds and a stale cache *)

Section NotANumber.

Context {Rng : Type} {rnd : PyRandom float Rng}.

Lemma binary64_leb_nan_l (x : float) : PrimFloat.leb nan x = false.
Proof.
  rewrite leb_spec.
  replace (Prim2SF nan) with S754_nan by (symmetry; vm_compute; reflexivity).
  reflexivity.
Qed.

Lemma binary64_leb_nan_r (x : float) : PrimFloat.leb x nan = false.
Proof.
  rewrite leb_spec.
  replace (Prim2SF nan) with S754_nan by (symmetry; vm_compute; reflexivity).
  unfold SFleb. destruct (Prim2SF x); reflexivity.
Qed.

(** X16. On doubles, a distribution one of whose bounds is not-a-number
    is never active: every comparison with NaN is false, so it samples 0.0
    in every year and never draws. *)
Theorem nan_bound_is_never_active :
  forall (d : RandomType (F:=float)) (year : Z) (g : Rng),
    start_year d = nan \/ end_year d = nan ->
    sample_value d year g = (Ok 0%float, g).
Proof.
  intros d year g Hnan. change 0%float with (fzero (F:=float)).
  apply sample_value_inactive. unfold active. apply andb_false_iff.
  destruct Hnan as [Hs | He].
  - left. rewrite Hs. apply binary64_leb_nan_l.
  - right. rewrite He. apply binary64_leb_nan_r.
Qed.


End NotANumber.

Section StaleCache.

Context {F : Type} {num : PyFloat F}.
Context {Rng : Type} {rnd : PyRandom F Rng} {np : Numpy F}.

(** The search runs past the end of the cumulative flows. *)
Lemma first_positive_overrun (cumsum : list F) (default : Z) (len a : nat) :
  (a <= List.length cumsum)%nat ->
  (List.length cumsum < a + len)%nat ->
  (forall j, ~ positive_at cumsum j) ->
  Summary.first_positive cumsum (map Z.of_nat (seq a len)) default
  = Raise IndexError.
Proof.
  revert a. induction len as [| len IH]; intros a Hle Hlt Hnone.
  - lia.
  - simpl. destruct (Nat.eq_dec a (List.length cumsum)) as [Heq | Hne].
    + unfold py_getitem.
      destruct (Z.ltb_spec (Z.of_nat a) 0) as [Hneg | _]; [lia | ].
      destruct (Z.ltb_spec (Z.of_nat a) (Z.of_nat (List.length cumsum)))
        as [Hin | _]; [lia | ].
      rewrite andb_false_r. reflexivity.
    + assert (Hin : (a < List.length cumsum)%nat) by lia.
      destruct (nth_error_in_range cumsum Hin) as [c Hc].
      rewrite (py_getitem_nonneg _ _ Hc). simpl.
      destruct (fltb (of_int 0) c) eqn:Hpos.
      * exfalso. apply (Hnone a). exists c. split; [exact Hc | exact Hpos].
      * apply IH; [lia | lia | exact Hnone].
Qed.

(** X18. The cache is not tied to the horizon: when [years] has been
    raised beyond the cached entries without a new sampling and the
    cumulative flow of the cache is never positive, the payback period
    is an IndexError raised by the search loop. *)
Theorem payback_period_stale_cache :
  forall (s : Summary.t (F:=F)) (g : Rng) (ncf : list F),
    Summary.sampled s = true ->
    Summary._net_cash_flow s = Some ncf ->
    Z.of_nat (List.length ncf) < Summary.years s ->
    (forall j, ~ positive_at (np_cumsum ncf) j) ->
    Summary.get_payback_period (s, g) = (Raise IndexError, (s, g)).
Proof.
  intros s g ncf Hs Hcache Hshort Hnone.
  rewrite (get_payback_period_sampled s g Hs), Hcache. simpl.
  unfold payback_of. rewrite py_range_from_zero.
  rewrite first_positive_overrun.
  - reflexivity.
  - lia.
  - rewrite length_np_cumsum. simpl. lia.
  - exact Hnone.
Qed.

End StaleCache.

Lemma nan_bound_is_never_active_witness :
  sample_value (IsGaussian (Gaussian.make 5%float 2%float nan 7%float)) 5 0%nat
  = (Ok 0%float, 0%nat).
Proof.
  refine (nan_bound_is_never_active
            (IsGaussian (Gaussian.make 5%float 2%float nan 7%float)) 5 0%nat _).
  left. reflexivity.
Defined.


(** The cache [-100, 30, 30] of a horizon of 2, read with the horizon 9. *)
Lemma payback_period_stale_cache_witness :
  Summary._net_cash_flow Examples.stale_a
    = Some [(-100)%float; 30%float; 30%float]
  /\ Summary.years Examples.stale_a = 9
  /\ Summary.get_payback_period (Examples.stale_a, 0%nat)
     = (Raise IndexError, (Examples.stale_a, 0%nat)).
Proof.
  split; [reflexivity | ]. split; [reflexivity | ].
  apply (payback_period_stale_cache Examples.stale_a 0%nat
           (ncf := [(-100)%float; 30%float; 30%float])).
  - reflexivity.
  - reflexivity.
  - vm_compute. reflexivity.
  - intros j [c [Hnth Hpos]].
    destruct j as [| [| [| j]]];
      [ | | | simpl in Hnth; destruct j; discriminate Hnth ];
      vm_compute in Hnth; inversion Hnth; subst c;
      vm_compute in Hpos; discriminate Hpos.
Defined.
